(** * gyptest.py: the command executor and the test matrix runner

    A shallow embedding of [src/gyptest.py] (Python 2): the class
    [CommandRunner] (methods [subst], [display], [execute], [run]), the
    wrapper [Unbuffered] and the part of [main] that drives the
    format x test matrix, classifies the statuses and computes the exit
    code.

    Python values are a small inductive type, exceptions are an error
    monad and every observable effect (a write, a flush, an environment
    assignment, an in-process call, a spawned process) is an event appended
    to a trace. *)

From Stdlib Require Import ZArith NArith List String Ascii Bool Lia DecimalString.
From Stdlib Require Import Sorted Permutation.
From stdpp Require Import base gmap strings list.

Local Open Scope string_scope.
Local Open Scope list_scope.
#[local] Set Warnings "-register-all".

(** ** Python values *)

(** The substitution dictionary: a [dict] from names to replacement
    strings. *)
Abbreviation Dict := (gmap string string).

Inductive PyVal : Type :=
| VNone
| VBool (b : bool)
| VInt (z : Z)
| VStr (s : string)
| VList (items : list PyVal)
| VTuple (items : list PyVal)
| VDict (d : Dict)
| VFunc (name : string).

(** [type(v) == type('')], [type(v) == type(())], [type(v) == type([])]. *)
Definition is_str (v : PyVal) : bool :=
  match v with VStr _ => true | _ => false end.
Definition is_tuple (v : PyVal) : bool :=
  match v with VTuple _ => true | _ => false end.
Definition is_list (v : PyVal) : bool :=
  match v with VList _ => true | _ => false end.

(** Truth value of an object, as [if v:] tests it. *)
Definition py_truthy (v : PyVal) : bool :=
  match v with
  | VNone => false
  | VBool b => b
  | VInt z => negb (z =? 0)%Z
  | VStr s => negb (String.eqb s EmptyString)
  | VList items | VTuple items => match items with [] => false | _ => true end
  | VDict d => negb (bool_decide (d = ∅))
  | VFunc _ => true
  end.

(** [v == n] for an integer literal [n]: a [bool] compares as 0 or 1. *)
Definition py_eq_int (v : PyVal) (n : Z) : bool :=
  match v with
  | VInt z => (z =? n)%Z
  | VBool b => ((if b then 1 else 0) =? n)%Z
  | _ => false
  end.

(** ** Exceptions *)

Inductive exn : Type :=
| NameError (name : string)
| TypeError
| KeyError (key : string)
| ValueError
| AttributeError
| IndexError
| OSError
| SystemExit (code : Z).

Inductive result (A : Type) : Type :=
| Ok (a : A)
| Raise (e : exn).
Arguments Ok {A} a.
Arguments Raise {A} e.

Definition is_ok {A} (r : result A) : bool :=
  match r with Ok _ => true | Raise _ => false end.

(** ** Characters and strings *)

Definition NL : string := String "010"%char EmptyString.
Definition TAB : string := String "009"%char EmptyString.

Definition is_digit (c : ascii) : bool :=
  let n := nat_of_ascii c in (48 <=? n)%nat && (n <=? 57)%nat.
Definition digit_val (c : ascii) : N := N.of_nat (nat_of_ascii c - 48).

Definition char_in (c : ascii) (s : string) : bool :=
  existsb (Ascii.eqb c) (list_ascii_of_string s).

Fixpoint replicate_char (n : nat) (c : ascii) : string :=
  match n with O => EmptyString | S k => String c (replicate_char k c) end.

(** [sep.join(parts)] *)
Fixpoint join (sep : string) (parts : list string) : string :=
  match parts with
  | [] => EmptyString
  | [p] => p
  | p :: rest => p +:+ sep +:+ join sep rest
  end.

(** [s.endswith(suffix)] *)
Definition endswith (s suffix : string) : bool :=
  let n := String.length s in
  let m := String.length suffix in
  (m <=? n)%nat && String.eqb (substring (n - m) m s) suffix.



Definition no_percent (s : string) : bool :=
  negb (existsb (Ascii.eqb "%") (list_ascii_of_string s)).

(** [s.startswith(prefix)] *)
Definition startswith (s prefix : string) : bool := String.prefix prefix s.

(** [s.split(sep)] for a one-character separator. *)
Fixpoint split_char (sep : ascii) (cur : string) (s : string) : list string :=
  match s with
  | EmptyString => [cur]
  | String c rest =>
      if Ascii.eqb c sep then cur :: split_char sep EmptyString rest
      else split_char sep (cur +:+ String c EmptyString) rest
  end.
Definition split (s : string) (sep : ascii) : list string :=
  split_char sep EmptyString s.

(** ** Events, sinks and the host

    Everything the program does to the outside is an event; the trace of
    a run is the list of its events, oldest first. *)

(** What [Popen] is given for [stdout] and [stderr]. *)
Inductive Sink : Type :=
| PIPE
| STDOUT
| Stream (name : string).

Inductive Event : Type :=
| EWrite (stream : string) (text : string)
| EFlush (stream : string)
| ESetEnv (name value : string)
| ECall (func : string) (args : list PyVal)
| ESpawn (command : PyVal) (shell : bool) (stdout stderr : Sink) (returncode : Z).

(** A directory as [os.walk] reads it: its subdirectories, by name, and
    the names of its other entries, both in the order [os.listdir] gives. *)
Inductive Tree : Type :=
| Dir (subdirs : list (string * Tree)) (files : list string).

(** What lies outside the file: [repr], the module [shlex] (which the
    file never imports), the functions that a callable command names, the
    processes [subprocess.Popen] starts, the values of [sys.platform],
    [sys.executable], [os.path.abspath] and [os.path.normpath], the
    environment the program starts with and the file system.  The answers
    may depend on the trace so far. *)
Class Host : Type := {
  py_repr : PyVal -> string;
  shlex_split : string -> result (list string);
  call_result : string -> list PyVal -> list Event -> result PyVal;
  popen_result :
    PyVal -> bool -> Sink -> Sink -> list Event -> result (Z * string);
  sys_platform : string;
  sys_executable : string;
  os_path_abspath : string -> string;
  os_path_normpath : string -> string;
  os_path_isdir : string -> list Event -> bool;
  os_tree : string -> Tree;
  os_environ : Dict
}.

(** [str(v)]: a string is itself, the other values print as their repr. *)
Definition py_str `{Host} (v : PyVal) : string :=
  match v with VStr s => s | _ => py_repr v end.

(** ** The format operator [string % dictionary]

    [CommandRunner.subst] applies Python's [%] to the command and the
    dictionary.  For a [str] on the left this is CPython 2's
    [PyString_Format] with a mapping as the only operand; it is modelled
    here one character at a time, as the C loop reads the template:
    text, [%], an optional [(key)] with balanced parentheses, flags, a
    width, a precision, a length modifier and the conversion character.
    The values of the dictionary are strings, so the numeric and float
    conversions always fail with [TypeError]. *)

Module Format.

(** The operand the next conversion takes: the mapping itself, or the
    value a [(key)] has just looked up. *)
Inductive Operand : Type :=
| OpDict
| OpVal (s : string).

Record FState : Type := mkFState {
  out : string;          (* the text produced so far *)
  operand : Operand;     (* [args] in the C code *)
  consumed : bool        (* whether [getnextarg] already returned it *)
}.

Inductive Phase : Type :=
| PText
| PStart
| PKey (depth : nat) (key : string)
| PFlags (ljust : bool)
| PWidth (ljust : bool) (width : N)
| PDot (ljust : bool) (width : N)
| PPrec (ljust : bool) (width : N) (prec : N)
| PConv (ljust : bool) (width : N) (prec : option N).

Definition PY_SSIZE_T_MAX : N := 2 ^ 63 - 1.
Definition INT_MAX : N := 2 ^ 31 - 1.

Definition emit (st : FState) (text : string) : FState :=
  mkFState (out st +:+ text) (operand st) (consumed st).

(** Truncation by the precision and padding to the width; the fill
    character of the [s], [r], [c] and [%] conversions is a space. *)
Definition truncate (prec : option N) (text : string) : string :=
  match prec with
  | Some p => if (p <? N.of_nat (String.length text))%N
              then substring 0 (N.to_nat p) text else text
  | None => text
  end.

Definition pad (ljust : bool) (width : N) (text : string) : string :=
  let fill := replicate_char (N.to_nat width - String.length text) " "%char in
  if ljust then text +:+ fill else fill +:+ text.

(** The state with [x] put before the text produced so far. *)
Definition shift (x : string) (st : FState) : FState :=
  mkFState (x +:+ out st) (operand st) (consumed st).

Definition shift_result (x : string) (r : result (FState * Phase))
    : result (FState * Phase) :=
  match r with
  | Ok (st, ph) => Ok (shift x st, ph)
  | Raise e => Raise e
  end.

(** The errors of the formatter: a missing key, a malformed template or
    a type mismatch. *)
Definition format_error (e : exn) : Prop :=
  e = TypeError \/ e = ValueError \/ exists key, e = KeyError key.

Section WithHost.
Context `{Host}.

Definition operand_value (d : Dict) (o : Operand) : PyVal :=
  match o with OpDict => VDict d | OpVal s => VStr s end.

(** The [switch (c)] on the conversion character, for an operand that
    is a string or the dictionary. *)
Definition convert (c : ascii) (prec : option N) (v : PyVal) : result string :=
  if Ascii.eqb c "s" then Ok (truncate prec (py_str v))
  else if Ascii.eqb c "r" then Ok (truncate prec (py_repr v))
  else if char_in c "iduoxXeEfFgG" then Raise TypeError
  else if Ascii.eqb c "c" then
    match v with
    | VStr (String a EmptyString) => Ok (String a EmptyString)
    | _ => Raise TypeError
    end
  else Raise ValueError.

Definition on_conv (d : Dict) (st : FState) (lj : bool) (w : N)
    (p : option N) (c : ascii) : result (FState * Phase) :=
  if Ascii.eqb c "%" then Ok (emit st (pad lj w "%"), PText)
  else if consumed st then Raise TypeError
  else
    match convert c p (operand_value d (operand st)) with
    | Ok text =>
        Ok (mkFState (out st +:+ pad lj w text) (operand st) true, PText)
    | Raise e => Raise e
    end.

Definition on_lenmod (d : Dict) (st : FState) (lj : bool) (w : N)
    (p : option N) (c : ascii) : result (FState * Phase) :=
  if char_in c "hlL" then Ok (st, PConv lj w p) else on_conv d st lj w p c.

Definition on_dot (d : Dict) (st : FState) (lj : bool) (w : N)
    (c : ascii) : result (FState * Phase) :=
  if Ascii.eqb c "." then Ok (st, PDot lj w) else on_lenmod d st lj w None c.

(** A [*] asks [getnextarg] for an [int]; no operand here is one. *)
Definition on_width (d : Dict) (st : FState) (lj : bool)
    (c : ascii) : result (FState * Phase) :=
  if Ascii.eqb c "*" then Raise TypeError
  else if is_digit c then Ok (st, PWidth lj (digit_val c))
  else on_dot d st lj 0%N c.

Definition on_flags (d : Dict) (st : FState) (lj : bool)
    (c : ascii) : result (FState * Phase) :=
  if char_in c "-+ #0" then Ok (st, PFlags (lj || Ascii.eqb c "-"))
  else on_width d st lj c.

Definition step (d : Dict) (st : FState) (ph : Phase) (c : ascii)
    : result (FState * Phase) :=
  match ph with
  | PText =>
      if Ascii.eqb c "%" then Ok (st, PStart)
      else Ok (emit st (String c EmptyString), PText)
  | PStart =>
      if Ascii.eqb c "(" then Ok (st, PKey 1 EmptyString)
      else on_flags d st false c
  | PKey depth key =>
      if Ascii.eqb c ")" then
        match depth with
        | S (S k) => Ok (st, PKey (S k) (key +:+ String c EmptyString))
        | _ =>
            match d !! key with
            | Some v => Ok (mkFState (out st) (OpVal v) false, PFlags false)
            | None => Raise (KeyError key)
            end
        end
      else if Ascii.eqb c "(" then
        Ok (st, PKey (S depth) (key +:+ String c EmptyString))
      else Ok (st, PKey depth (key +:+ String c EmptyString))
  | PFlags lj => on_flags d st lj c
  | PWidth lj w =>
      if is_digit c then
        if ((PY_SSIZE_T_MAX - digit_val c) / 10 <? w)%N then Raise ValueError
        else Ok (st, PWidth lj (w * 10 + digit_val c)%N)
      else on_dot d st lj w c
  | PDot lj w =>
      if Ascii.eqb c "*" then Raise TypeError
      else if is_digit c then Ok (st, PPrec lj w (digit_val c))
      else on_lenmod d st lj w (Some 0%N) c
  | PPrec lj w p =>
      if is_digit c then
        if ((INT_MAX - digit_val c) / 10 <? p)%N then Raise ValueError
        else Ok (st, PPrec lj w (p * 10 + digit_val c)%N)
      else on_lenmod d st lj w (Some p) c
  | PConv lj w p => on_conv d st lj w p c
  end.

(** The loop over the template.  A template that ends inside a
    specifier is an "incomplete format". *)
Fixpoint run (d : Dict) (st : FState) (ph : Phase) (s : string)
    : result string :=
  match s with
  | EmptyString =>
      match ph with PText => Ok (out st) | _ => Raise ValueError end
  | String c rest =>
      match step d st ph c with
      | Ok (st', ph') => run d st' ph' rest
      | Raise e => Raise e
      end
  end.

Definition start : FState := mkFState EmptyString OpDict false.

(** The state and the phase the loop is in after a part of the
    template. *)
Fixpoint steps (d : Dict) (st : FState) (ph : Phase) (s : string)
    : result (FState * Phase) :=
  match s with
  | EmptyString => Ok (st, ph)
  | String c rest =>
      match step d st ph c with
      | Ok (st', ph') => steps d st' ph' rest
      | Raise e => Raise e
      end
  end.

Definition format (s : string) (d : Dict) : result string :=
  run d start PText s.

End WithHost.
End Format.

(** [string % dictionary]: only a [str] has the operator; any other left
    operand is an unsupported operand type. *)
Definition py_mod `{Host} (v : PyVal) (d : Dict) : result PyVal :=
  match v with
  | VStr s =>
      match Format.format s d with
      | Ok s' => Ok (VStr s')
      | Raise e => Raise e
      end
  | _ => Raise TypeError
  end.

(** ** class CommandRunner *)

Record CommandRunner : Type := mkCommandRunner {
  verbose : bool;
  active : bool;
  _subst_dictionary : Dict;
  cr_stdout : option string       (* the attribute [self.stdout] *)
}.

(** [CommandRunner.__init__], with the class attributes given. *)
Definition CommandRunner_init (verbose active : bool) (dictionary : Dict)
    : CommandRunner :=
  mkCommandRunner verbose active dictionary None.

Section Executor.
Context `{Host}.

(** [CommandRunner.subst] *)
Definition subst (self : CommandRunner) (string : PyVal)
    (dictionary : option Dict) : result PyVal :=
  let dictionary :=
    match dictionary with
    | None => _subst_dictionary self
    | Some d => d
    end in
  if py_truthy (VDict dictionary) then
    match py_mod string dictionary with
    | Ok string' => Ok string'
    | Raise TypeError => Ok string
    | Raise e => Raise e
    end
  else Ok string.

(** *** State and errors

    A method runs on a state, the instance [self] and the trace of events,
    and either returns a value or raises; the state it leaves is kept in
    both cases. *)

Record State : Type := mkState {
  self : CommandRunner;
  trace : list Event
}.

Definition M (A : Type) : Type := State -> result A * State.

Definition ret {A} (a : A) : M A := fun st => (Ok a, st).
Definition raise {A} (e : exn) : M A := fun st => (Raise e, st).
Definition bind {A B} (m : M A) (k : A -> M B) : M B :=
  fun st =>
    match m st with
    | (Ok a, st') => k a st'
    | (Raise e, st') => (Raise e, st')
    end.
Definition lift {A} (r : result A) : M A := fun st => (r, st).
Definition get_self : M CommandRunner := fun st => (Ok (self st), st).
Definition event (e : Event) : M unit :=
  fun st => (Ok tt, mkState (self st) (trace st ++ [e])).

Notation "x <-- m ;; k" := (bind m (fun x => k))
  (at level 100, m at next level, right associativity).
Notation "m ;;; k" := (bind m (fun _ => k))
  (at level 100, right associativity).

(** *** The module's names

    The names the module binds at top level: its imports, classes and
    functions.  A use of any other non-builtin name is a [NameError]. *)
Definition module_globals : list string :=
  ["__doc__"; "os"; "optparse"; "subprocess"; "sys"; "CommandRunner";
   "Unbuffered"; "find_all_gyptest_files"; "main"].

Definition global_name (name : string) : result unit :=
  if existsb (String.eqb name) module_globals then Ok tt
  else Raise (NameError name).

(** *** class Unbuffered, wrapped around [sys.stdout] and [sys.stderr] *)

(** [Unbuffered.write] *)
Definition Unbuffered_write (fp : string) (arg : string) : M unit :=
  event (EWrite fp arg) ;;; event (EFlush fp).

(** [Unbuffered.__getattr__]: [flush] is the wrapped file's. *)
Definition Unbuffered_flush (fp : string) : M unit := event (EFlush fp).

(** *** Small pieces of Python *)

(** [command[0]] and [command[1:]] of a tuple. *)
Definition first_item (v : PyVal) : result PyVal :=
  match v with
  | VTuple (x :: _) | VList (x :: _) => Ok x
  | VTuple [] | VList [] => Raise IndexError
  | _ => Raise TypeError
  end.
Definition rest_items (v : PyVal) : list PyVal :=
  match v with
  | VTuple items | VList items => List.tl items
  | _ => []
  end.

Definition list_items (v : PyVal) : list PyVal :=
  match v with
  | VTuple items | VList items => items
  | _ => []
  end.

(** [func.__name__] *)
Definition func_name (v : PyVal) : result string :=
  match v with VFunc name => Ok name | _ => Raise AttributeError end.

(** [' '.join(command)]: every item has to be a string. *)
Fixpoint str_items (items : list PyVal) : result (list string) :=
  match items with
  | [] => Ok []
  | VStr s :: rest =>
      match str_items rest with
      | Ok l => Ok (s :: l)
      | Raise e => Raise e
      end
  | _ :: _ => Raise TypeError
  end.

(** The call of [func] on the unpacked [args]: the call is an event, also
    when it raises. *)
Definition py_call (func : PyVal) (args : list PyVal) : M PyVal :=
  match func with
  | VFunc name =>
      fun st =>
        (call_result name args (trace st),
         mkState (self st) (trace st ++ [ECall name args]))
  | _ => raise TypeError
  end.

(** [p = subprocess.Popen(...); p.wait()]: the exit status and what the
    child wrote to a pipe, or the error of a failed launch. *)
Definition Popen_wait (command : PyVal) (shell : bool) (stdout stderr : Sink)
    : M (Z * string) :=
  fun st =>
    match popen_result command shell stdout stderr (trace st) with
    | Ok (returncode, output) =>
        (Ok (returncode, output),
         mkState (self st)
           (trace st ++ [ESpawn command shell stdout stderr returncode]))
    | Raise e => (Raise e, st)
    end.

Definition set_stdout (text : string) : M unit :=
  fun st =>
    (Ok tt,
     mkState (mkCommandRunner (verbose (self st)) (active (self st))
                (_subst_dictionary (self st)) (Some text))
             (trace st)).

(** *** CommandRunner.display *)
Definition display (command : PyVal) : M unit :=
  cr <-- get_self ;;
  if negb (verbose cr) then ret tt
  else
    (* if type(command) == type(()): *)
    _s <-- (if is_tuple command then
              func <-- lift (first_item command) ;;
              let args := rest_items command in
              name <-- lift (func_name func) ;;
              ret (Some (name +:+ "(" +:+ join ", " (map py_repr args) +:+ ")"))
            else ret None) ;;
    (* if type(command) == type([]): ... else: ... *)
    s <-- (if is_list command then
             parts <-- lift (str_items (list_items command)) ;;
             ret (VStr (join " " parts))
           else lift (subst cr command None)) ;;
    match s with
    | VStr s =>
        let s := if negb (endswith s NL) then s +:+ NL else s in
        Unbuffered_write "stdout" s ;;;
        Unbuffered_flush "stdout"
    | _ => raise AttributeError
    end.

(** What [display] writes for a rendering, and the state after it. *)
Definition terminated (r : string) : string :=
  if endswith r NL then r else r +:+ NL.

Definition wrote (st : State) (line : string) : State :=
  mkState (self st)
    (trace st ++ [EWrite "stdout" line; EFlush "stdout"; EFlush "stdout"]).

(** *** CommandRunner.execute *)
Definition execute (command : PyVal) (stdout stderr : option Sink) : M PyVal :=
  cr <-- get_self ;;
  if negb (active cr) then ret (VInt 0)
  else
    (* if type(command) == type(''): *)
    command <-- (if is_str command then
                   command <-- lift (subst cr command None) ;;
                   _shlex <-- lift (global_name "shlex") ;;
                   cmdargs <-- lift (match command with
                                     | VStr s => shlex_split s
                                     | _ => Raise AttributeError
                                     end) ;;
                   match cmdargs with
                   | [] => raise IndexError
                   | arg0 :: args =>
                       if String.eqb arg0 "cd"
                       then ret (VTuple (VFunc "chdir" :: map VStr args))
                       else ret command
                   end
                 else ret command) ;;
    if is_tuple command then
      func <-- lift (first_item command) ;;
      let args := rest_items command in
      py_call func args
    else
      let stdout := match stdout with None => PIPE | Some s => s end in
      let stderr := match stderr with None => STDOUT | Some s => s end in
      p <-- Popen_wait command (String.eqb sys_platform "win32")
              stdout stderr ;;
      let '(returncode, output) := p in
      (* if p.stdout: only a pipe gives [p] a [stdout] to read *)
      (match stdout with
       | PIPE => set_stdout output
       | _ => ret tt
       end) ;;;
      ret (VInt returncode).

(** *** CommandRunner.run *)
Definition run (command : PyVal) (display_ : option PyVal)
    (stdout stderr : option Sink) : M PyVal :=
  let display_ := match display_ with None => command | Some d => d end in
  display display_ ;;;
  execute command stdout stderr.

(** ** find_all_gyptest_files *)

(** [os.path.join(a, b)] of [posixpath]. *)
Definition os_path_join (a b : string) : string :=
  if startswith b "/" then b
  else if String.eqb a EmptyString || endswith a "/" then a +:+ b
  else a +:+ "/" +:+ b.

(** [if '.svn' in dirs: dirs.remove('.svn')] *)
Fixpoint list_remove (x : string) (l : list string) : list string :=
  match l with
  | [] => []
  | y :: l' => if String.eqb y x then l' else y :: list_remove x l'
  end.
Definition prune_svn (dirs : list string) : list string :=
  if existsb (String.eqb ".svn") dirs then list_remove ".svn" dirs else dirs.

(** [[os.path.join(root, f) for f in files
      if f.startswith('gyptest') and f.endswith('.py')]] *)
Definition gyptest_files (root : string) (files : list string) : list string :=
  map (os_path_join root)
    (List.filter (fun f => startswith f "gyptest" && endswith f ".py") files).

(** The loop over [os.walk(directory)], top down: the files of [root]
    are added, [.svn] is taken out of [dirs], and the walk goes on into
    the subdirectories whose names are still in [dirs] (the names in one
    directory are distinct). *)
Fixpoint walk_gyptest (root : string) (t : Tree) : list string :=
  match t with
  | Dir subdirs files =>
      let dirs := prune_svn (map fst subdirs) in
      (gyptest_files root files ++
      (fix into (subdirs : list (string * Tree)) : list string :=
         match subdirs with
         | [] => []
         | (name, sub) :: subdirs' =>
             (if existsb (String.eqb name) dirs
              then walk_gyptest (os_path_join root name) sub
              else []) ++ into subdirs'
         end) subdirs)%list
  end.

(** [result.sort()]: strings compare byte by byte, so the sorted list is
    the only ascending arrangement of the elements. *)
Fixpoint insert_sorted (x : string) (l : list string) : list string :=
  match l with
  | [] => [x]
  | y :: l' => if String.leb x y then x :: l else y :: insert_sorted x l'
  end.
Fixpoint sort_strings (l : list string) : list string :=
  match l with
  | [] => []
  | x :: l' => insert_sorted x (sort_strings l')
  end.

Definition find_all_gyptest_files (directory : string) : list string :=
  sort_strings (walk_gyptest directory (os_tree directory)).

(** ** main

    The options and the arguments are taken as [optparse] returns them. *)

Record Options : Type := mkOptions {
  opt_all : bool;
  opt_chdir : option string;
  opt_format : string;
  opt_list : bool;
  opt_no_exec : bool;
  opt_passed : bool;
  opt_path : list string;
  opt_quiet : bool
}.

(** The three lists [passed], [failed] and [no_result]. *)
Record Ledgers : Type := mkLedgers {
  passed : list string;
  failed : list string;
  no_result : list string
}.

Definition no_ledgers : Ledgers := mkLedgers [] [] [].

(** [if status == 2: ... elif status: ... else: ...] *)
Definition classify (status : PyVal) (test : string) (l : Ledgers) : Ledgers :=
  if py_eq_int status 2 then
    mkLedgers (passed l) (failed l) (no_result l ++ [test])
  else if py_truthy status then
    mkLedgers (passed l) (failed l ++ [test]) (no_result l)
  else
    mkLedgers (passed l ++ [test]) (failed l) (no_result l).

(** The ledgers after a sequence of runs, each a test and the integer
    status it had, filed one by one. *)
Definition file_runs (runs : list (string * Z)) (l : Ledgers) : Ledgers :=
  fold_left (fun l r => classify (VInt (snd r)) (fst r) l) runs l.

(** [for test in tests:] *)
Fixpoint run_tests (tests : list string) (l : Ledgers) : M Ledgers :=
  match tests with
  | [] => ret l
  | test :: tests' =>
      status <-- run (VList [VStr sys_executable; VStr test]) None
                   (Some (Stream "stdout")) (Some (Stream "stderr")) ;;
      run_tests tests' (classify status test l)
  end.

(** [for format in format_list:] *)
Fixpoint run_formats (quiet : bool) (format_list tests : list string)
    (l : Ledgers) : M Ledgers :=
  match format_list with
  | [] => ret l
  | format :: format_list' =>
      event (ESetEnv "TESTGYP_FORMAT" format) ;;;
      (if negb quiet
       then Unbuffered_write "stdout" ("TESTGYP_FORMAT=" +:+ format +:+ NL)
       else ret tt) ;;;
      l' <-- run_tests tests l ;;
      run_formats quiet format_list' tests l'
  end.

Definition platform_format : list (string * string) :=
  [("freebsd7", "make"); ("freebsd8", "make"); ("cygwin", "msvs");
   ("win32", "msvs"); ("linux2", "scons"); ("darwin", "xcode")].

Fixpoint dict_get (key : string) (items : list (string * string))
    : result string :=
  match items with
  | [] => Raise (KeyError key)
  | (k, v) :: items' => if String.eqb k key then Ok v else dict_get key items'
  end.

Definition format_list (opts : Options) : result (list string) :=
  if py_truthy (VStr (opt_format opts)) then
    Ok (split (opt_format opts) ","%char)
  else
    match dict_get sys_platform platform_format with
    | Ok f => Ok [f]
    | Raise e => Raise e
    end.

(** ['%d' % n] for a length. *)
Definition decimal (n : nat) : string :=
  DecimalString.NilZero.string_of_uint (Nat.to_uint n).

(** The local function [report]. *)
Definition report (description : string) (tests : list string) : M unit :=
  match tests with
  | [] => ret tt
  | _ =>
      (if (List.length tests =? 1)%nat
       then Unbuffered_write "stdout"
              (NL +:+ description +:+ " the following test:" +:+ NL)
       else Unbuffered_write "stdout"
              (NL +:+ description +:+ " the following " +:+
               decimal (List.length tests) +:+ " tests:" +:+ NL)) ;;;
      Unbuffered_write "stdout" (TAB +:+ join (NL +:+ TAB) tests +:+ NL)
  end.

(** The value [main] returns. *)
Definition exit_code (l : Ledgers) : Z :=
  match failed l with
  | [] => 0
  | _ => 1
  end.

(** The lines that publish [PYTHONPATH]. *)
Definition main_setup (opts : Options) : M unit :=
  let PYTHONPATH := os_path_abspath "test/lib" in
  event (ESetEnv "PYTHONPATH" PYTHONPATH) ;;;
  (if negb (opt_quiet opts)
   then Unbuffered_write "stdout" ("PYTHONPATH=" +:+ PYTHONPATH +:+ NL)
   else ret tt).

(** The reports, under [if not opts.quiet:]. *)
Definition main_report (opts : Options) (l : Ledgers) : M unit :=
  if negb (opt_quiet opts) then
    (if opt_passed opts then report "Passed" (passed l) else ret tt) ;;;
    report "Failed" (failed l) ;;;
    report "No result from" (no_result l)
  else ret tt.

Definition main_matrix (opts : Options) (tests : list string) : M Z :=
  main_setup opts ;;;
  format_list <-- lift (format_list opts) ;;
  l <-- run_formats (opt_quiet opts) format_list tests no_ledgers ;;
  main_report opts l ;;;
  ret (exit_code l).

(** [main] from the point where [tests] is complete: the class
    attributes [verbose] and [active] are set from the options and
    [cr = CommandRunner()] is made with the default, empty, dictionary. *)
Definition set_runner (cr : CommandRunner) : M unit :=
  fun st => (Ok tt, mkState cr (trace st)).

Definition main_run (opts : Options) (tests : list string) : M Z :=
  set_runner (CommandRunner_init (negb (opt_quiet opts))
                (negb (opt_no_exec opts)) ∅) ;;;
  main_matrix opts tests.

(** The state in which the loop over the formats starts. *)
Definition matrix_start (opts : Options) (st : State) : State :=
  snd ((set_runner (CommandRunner_init (negb (opt_quiet opts))
                      (negb (opt_no_exec opts)) ∅) ;;;
        main_setup opts) st).

(** [os.environ[name]], after the assignments the trace holds. *)
Fixpoint env_last (name : string) (tr : list Event) (cur : option string)
    : option string :=
  match tr with
  | [] => cur
  | ESetEnv n v :: tr' =>
      env_last name tr' (if String.eqb n name then Some v else cur)
  | _ :: tr' => env_last name tr' cur
  end.
Definition environ_get (name : string) : M string :=
  fun st =>
    match env_last name (trace st) (os_environ !! name) with
    | Some v => (Ok v, st)
    | None => (Raise (KeyError name), st)
    end.

(** [for arg in args:], which fills [tests]. *)
Definition collect_tests (args : list string) : M (list string) :=
  fun st =>
    (Ok (flat_map
           (fun arg =>
              if os_path_isdir arg (trace st)
              then find_all_gyptest_files (os_path_normpath arg)
              else [arg])
           args), st).

(** [for test in tests: print test] *)
Fixpoint print_tests (tests : list string) : M unit :=
  match tests with
  | [] => ret tt
  | test :: tests' =>
      Unbuffered_write "stdout" test ;;;
      Unbuffered_write "stdout" NL ;;;
      print_tests tests'
  end.

Definition main (opts : Options) (args : list string) : M Z :=
  (match opt_chdir opts with
   | Some dir =>
       if py_truthy (VStr dir)
       then _r <-- py_call (VFunc "chdir") [VStr dir] ;; ret tt
       else ret tt
   | None => ret tt
   end) ;;;
  (match opt_path opts with
   | [] => ret tt
   | path =>
       PATH <-- environ_get "PATH" ;;
       event (ESetEnv "PATH" (PATH +:+ ":" +:+ join ":" path))
   end) ;;;
  match args, opt_all opts with
  | [], false =>
      Unbuffered_write "stderr" ("Specify -a to get all tests." +:+ NL) ;;;
      ret 1%Z
  | _, _ =>
      let args := match args with [] => ["test"] | _ => args end in
      tests <-- collect_tests args ;;
      if opt_list opts then
        print_tests tests ;;;
        raise (SystemExit 0)
      else main_run opts tests
  end.

(** The list [tests] that [main] fills from its arguments. *)
Definition main_tests (args : list string) (tr : list Event) : list string :=
  flat_map
    (fun arg =>
       if os_path_isdir arg tr
       then find_all_gyptest_files (os_path_normpath arg)
       else [arg])
    (match args with [] => ["test"] | _ => args end).

(** What [main] has written and set when the first test of the first
    format cannot be launched. *)
Definition first_launch_events (opts : Options) (fmt test : string)
    : list Event :=
  let PYTHONPATH := os_path_abspath "test/lib" in
  [ESetEnv "PYTHONPATH" PYTHONPATH] ++
  (if opt_quiet opts then []
   else [EWrite "stdout" ("PYTHONPATH=" +:+ PYTHONPATH +:+ NL);
         EFlush "stdout"]) ++
  [ESetEnv "TESTGYP_FORMAT" fmt] ++
  (if opt_quiet opts then []
   else [EWrite "stdout" ("TESTGYP_FORMAT=" +:+ fmt +:+ NL);
         EFlush "stdout";
         EWrite "stdout" (terminated (join " " [sys_executable; test]));
         EFlush "stdout"; EFlush "stdout"]).

(** The command [main] runs for a test, and the runner [main] makes. *)
Definition test_command (test : string) : PyVal :=
  VList [VStr sys_executable; VStr test].

Definition main_runner (opts : Options) : CommandRunner :=
  CommandRunner_init (negb (opt_quiet opts)) (negb (opt_no_exec opts)) ∅.

End Executor.

(** The order of [result.sort()]. *)
Definition str_le (a b : string) : Prop := String.leb a b = true.

(** The processes a trace has spawned, each with the value
    [TESTGYP_FORMAT] had in the environment at that moment. *)
Fixpoint spawned (tr : list Event) (format : option string)
    : list (PyVal * option string) :=
  match tr with
  | [] => []
  | ESetEnv name value :: tr' =>
      spawned tr' (if String.eqb name "TESTGYP_FORMAT" then Some value
                   else format)
  | ESpawn command _ _ _ _ :: tr' => (command, format) :: spawned tr' format
  | _ :: tr' => spawned tr' format
  end.

(** The exit statuses of the processes a trace has spawned, in order. *)
Fixpoint spawn_codes (tr : list Event) : list Z :=
  match tr with
  | [] => []
  | ESpawn _ _ _ _ returncode :: tr' => returncode :: spawn_codes tr'
  | _ :: tr' => spawn_codes tr'
  end.

(** Every process spawned in [new] has the exit status the host gave for
    it when it was launched, after [pre] and the events of [new] that come
    before it. *)
Fixpoint answered `{Host} (pre new : list Event) : Prop :=
  match new with
  | [] => True
  | e :: new' =>
      match e with
      | ESpawn command shell stdout stderr returncode =>
          exists output,
            popen_result command shell stdout stderr pre
            = Ok (returncode, output)
      | _ => True
      end /\ answered (pre ++ [e]) new'
  end.

(** ** A host to run the model on

    Every test exits with 0 except [t2], which exits with 1 while the
    format is [fmtA], and [skip], which exits with 2. *)
Definition demo_popen (command : PyVal) (tr : list Event) : Z :=
  match command with
  | VList [_; VStr "t2"] =>
      match env_last "TESTGYP_FORMAT" tr None with
      | Some "fmtA" => 1
      | _ => 0
      end
  | VList [_; VStr "skip"] => 2
  | _ => 0
  end.

Definition demo_host : Host := {|
  py_repr := fun v => match v with VStr s => "'" +:+ s +:+ "'" | _ => "<object>" end;
  shlex_split := fun s => Ok (split s " "%char);
  call_result := fun _ _ _ => Ok VNone;
  popen_result := fun command _ _ _ tr => Ok (demo_popen command tr, "output");
  sys_platform := "linux2";
  sys_executable := "python";
  os_path_abspath := fun p => "/gyp/" +:+ p;
  os_path_normpath := fun p => p;
  os_path_isdir := fun p _ => String.eqb p "test";
  os_tree := fun _ =>
    Dir [("lib", Dir [] ["TestGyp.py"]);
         (".svn", Dir [] ["gyptest-old.py"]);
         ("hello", Dir [] ["gyptest-all.py"; "hello.gyp"; "gyptest-a.py"])]
        ["gyptest.py"; "README"];
  os_environ := {[ "PATH" := "/bin" ]}
|}.

(** A host on which nothing can be launched: an unknown platform, an
    empty environment and no executable. *)
Definition broken_host : Host := {|
  py_repr := fun _ => "<object>";
  shlex_split := fun s => Ok (split s " "%char);
  call_result := fun _ _ _ => Raise OSError;
  popen_result := fun _ _ _ _ _ => Raise OSError;
  sys_platform := "sunos5";
  sys_executable := "python";
  os_path_abspath := fun p => "/gyp/" +:+ p;
  os_path_normpath := fun p => p;
  os_path_isdir := fun _ _ => false;
  os_tree := fun _ => Dir [] [];
  os_environ := ∅
|}.

(** A host whose directories hold no test. *)
Definition bare_host : Host := {|
  py_repr := fun _ => "<object>";
  shlex_split := fun s => Ok (split s " "%char);
  call_result := fun _ _ _ => Ok VNone;
  popen_result := fun _ _ _ _ _ => Ok (0%Z, EmptyString);
  sys_platform := "darwin";
  sys_executable := "python";
  os_path_abspath := fun p => "/gyp/" +:+ p;
  os_path_normpath := fun p => p;
  os_path_isdir := fun _ _ => true;
  os_tree := fun _ => Dir [(".svn", Dir [] ["gyptest-old.py"])] ["README"];
  os_environ := {[ "PATH" := "/bin" ]}
|}.

Definition demo_runner : CommandRunner := CommandRunner_init true true ∅.
Definition demo_state : State := mkState demo_runner [].
Definition demo_options : Options :=
  mkOptions false None "fmtA,fmtB" false false true [] false.

Definition demo_dry_options : Options :=
  mkOptions false None "fmtA,fmtB" false true true [] false.

Definition demo_default_options : Options :=
  mkOptions true None EmptyString false false false [] false.

Definition demo_list_options : Options :=
  mkOptions false None EmptyString true false false [] false.


(** * Properties *)

#[local] Arguments Ascii.eqb : simpl never.
#[local] Arguments String.eqb : simpl never.

(** ** Strings *)


Lemma append_cons (c : ascii) (a b : string) :
  String c a +:+ b = String c (a +:+ b).
Proof. reflexivity. Qed.

Lemma append_nil_r (s : string) : s +:+ EmptyString = s.
Proof.
  induction s as [|c s IH]; [reflexivity | now rewrite append_cons, IH].
Qed.

Lemma append_assoc (a b c : string) : (a +:+ b) +:+ c = a +:+ (b +:+ c).
Proof.
  induction a as [|x a IH]; [reflexivity | now rewrite !append_cons, IH].
Qed.

Lemma append_snoc (a : string) (c : ascii) (b : string) :
  (a +:+ String c EmptyString) +:+ b = a +:+ String c b.
Proof. now rewrite append_assoc. Qed.

(** ** The format operator *)

Module FormatFacts.
Import Format.

Section WithHost.
Context `{Host}.

Lemma run_steps d st ph s :
  run d st ph s =
  match steps d st ph s with
  | Ok (st', PText) => Ok (out st')
  | Ok _ => Raise ValueError
  | Raise e => Raise e
  end.
Proof.
  revert st ph; induction s as [|c s IH]; intros st ph; simpl.
  - destruct ph; reflexivity.
  - destruct (step d st ph c) as [[st' ph']|e]; [apply IH | reflexivity].
Qed.

Lemma steps_app d st ph a b :
  steps d st ph (a +:+ b) =
  match steps d st ph a with
  | Ok (st', ph') => steps d st' ph' b
  | Raise e => Raise e
  end.
Proof.
  revert st ph; induction a as [|c a IH]; intros st ph.
  - reflexivity.
  - rewrite append_cons; simpl.
    destruct (step d st ph c) as [[st' ph']|e]; [apply IH | reflexivity].
Qed.

Lemma run_app d st ph a b st' ph' :
  steps d st ph a = Ok (st', ph') ->
  run d st ph (a +:+ b) = run d st' ph' b.
Proof.
  intros Ha. rewrite !run_steps, steps_app, Ha. reflexivity.
Qed.

Lemma run_app_raise d st ph a b e :
  steps d st ph a = Raise e -> run d st ph (a +:+ b) = Raise e.
Proof.
  intros Ha. rewrite run_steps, steps_app, Ha. reflexivity.
Qed.

(** A template that formats leaves the loop in text. *)
Lemma format_ok_steps d s text :
  format s d = Ok text ->
  exists st, steps d start PText s = Ok (st, PText) /\ out st = text.
Proof.
  unfold format. rewrite run_steps.
  destruct (steps d start PText s) as [[st ph]|e]; [|discriminate].
  destruct ph; try discriminate.
  intros [= <-]. exists st. split; reflexivity.
Qed.

Lemma step_percent d st : step d st PText "%" = Ok (st, PStart).
Proof. reflexivity. Qed.






(** Text without a percent sign is copied. *)
Lemma steps_text d st s :
  no_percent s = true ->
  steps d st PText s = Ok (emit st s, PText).
Proof.
  unfold no_percent. revert st.
  induction s as [|c s IH]; intros st Hs.
  - simpl. unfold emit. rewrite append_nil_r. now destruct st.
  - simpl in Hs.
    rewrite negb_true_iff, orb_false_iff in Hs. destruct Hs as [Hc Hs].
    simpl. rewrite Ascii.eqb_sym, Hc.
    rewrite IH by now rewrite negb_true_iff.
    unfold emit; simpl. now rewrite append_snoc.
Qed.

End WithHost.
End FormatFacts.

(** ** CommandRunner.subst *)

Lemma singleton_not_empty (k v : string) : ({[ k := v ]} : Dict) <> ∅.
Proof. apply insert_non_empty. Qed.

Section SubstFacts.
Context `{Host}.

Lemma truthy_dict (d : Dict) : py_truthy (VDict d) = true <-> d <> ∅.
Proof.
  simpl. rewrite negb_true_iff, bool_decide_eq_false. reflexivity.
Qed.

Lemma subst_empty (cr : CommandRunner) (v : PyVal) :
  subst cr v (Some ∅) = Ok v.
Proof. reflexivity. Qed.


(** What [subst] returns for a string is a string. *)
Lemma subst_str (cr : CommandRunner) (s : string) (dictionary : option Dict)
    (v : PyVal) :
  subst cr (VStr s) dictionary = Ok v -> exists s', v = VStr s'.
Proof.
  unfold subst. destruct (py_truthy _).
  - simpl. destruct (Format.format s _) as [s'|e].
    + intros [= <-]. eauto.
    + destruct e; intros [= <-] || discriminate. eauto.
  - intros [= <-]. eauto.
Qed.



(** C7.  The three equations of the substitution round trip. *)
Theorem subst_round_trip (cr : CommandRunner) :
  subst cr (VStr "value=%(x)s") (Some {[ "x" := "A" ]}) = Ok (VStr "value=A") /\
  subst cr (VStr "plain text") (Some ∅) = Ok (VStr "plain text") /\
  subst cr (VStr "no placeholders") (Some {[ "x" := "A" ]})
  = Ok (VStr "no placeholders").
Proof. repeat split; vm_compute; reflexivity. Qed.

(** C9.  With an empty dictionary, given with the call or held by the
    runner, [subst] returns every string template unchanged, placeholders
    or not; so when [subst] raises, the dictionary it used is not
    empty. *)
Theorem subst_empty_context (cr : CommandRunner) (s : string) :
  subst cr (VStr s) (Some ∅) = Ok (VStr s) /\
  subst (mkCommandRunner (verbose cr) (active cr) ∅ (cr_stdout cr)) (VStr s) None
  = Ok (VStr s) /\
  (forall (dictionary : option Dict) (e : exn),
      subst cr (VStr s) dictionary = Raise e ->
      default (_subst_dictionary cr) dictionary <> ∅).
Proof.
  repeat split.
  intros dictionary e Hraise Hempty.
  unfold subst in Hraise.
  assert (Hd : match dictionary with
               | Some d => d
               | None => _subst_dictionary cr
               end = ∅) by (destruct dictionary; exact Hempty).
  rewrite Hd in Hraise. discriminate.
Qed.

End SubstFacts.



(** ** CommandRunner.display and CommandRunner.execute *)

Ltac unfold_m :=
  unfold Unbuffered_write, Unbuffered_flush, set_stdout, set_runner;
  unfold bind, ret, raise, lift, get_self, event.

Lemma substring_append_skip (r t : string) (m : nat) :
  substring (String.length r) m (r +:+ t) = substring 0 m t.
Proof.
  induction r as [|c r IH]; [reflexivity|].
  rewrite append_cons. simpl. exact IH.
Qed.

Lemma length_append (r t : string) :
  String.length (r +:+ t) = (String.length r + String.length t)%nat.
Proof.
  induction r as [|c r IH]; [reflexivity|].
  rewrite append_cons. simpl. now rewrite IH.
Qed.

Lemma endswith_append (r t : string) : endswith (r +:+ t) t = true.
Proof.
  unfold endswith. rewrite length_append.
  replace (String.length r + String.length t - String.length t)%nat
    with (String.length r) by lia.
  rewrite substring_append_skip.
  apply andb_true_intro; split.
  - apply Nat.leb_le. lia.
  - apply String.eqb_eq.
    induction t as [|c t IH]; [reflexivity|]. simpl. now rewrite IH.
Qed.

Lemma str_items_map (parts : list string) :
  str_items (map VStr parts) = Ok parts.
Proof.
  induction parts as [|p parts IH]; [reflexivity|]. simpl. now rewrite IH.
Qed.

Section ExecutorFacts.
Context `{Host}.

(** C1.  For a tuple command the second [if] of [display] is not an
    [elif]: its [else] branch replaces the rendered line by the tuple
    itself and [s.endswith] then fails.  With [verbose] on, [display]
    of a callable command writes nothing and raises; [AttributeError]
    when the first item is a function. *)
Theorem display_callable_raises (act : bool) (d : Dict) (so : option string)
    (tr : list Event) :
  let st := mkState (mkCommandRunner true act d so) tr in
  (forall (name : string) (args : list PyVal),
      display (VTuple (VFunc name :: args)) st = (Raise AttributeError, st)) /\
  (forall items : list PyVal,
      exists e, display (VTuple items) st = (Raise e, st)).
Proof.
  intros st.
  assert (Hfn : forall name args,
             display (VTuple (VFunc name :: args)) st
             = (Raise AttributeError, st)).
  { intros name args. unfold display, subst; unfold_m; simpl.
    destruct (negb (bool_decide (d = ∅))); reflexivity. }
  split; [exact Hfn|].
  intros [|func args].
  - exists IndexError. reflexivity.
  - destruct func; try (exists AttributeError; reflexivity).
    exists AttributeError. apply Hfn.
Qed.

(** C2.  The module never imports [shlex]: with [active] on, [execute]
    of a string command raises, the error of [subst] if it has one and
    [NameError] for [shlex] otherwise; nothing is called or spawned. *)
Theorem execute_string_raises (v : bool) (d : Dict) (so : option string)
    (tr : list Event) (s : string) (stdout stderr : option Sink) :
  let st := mkState (mkCommandRunner v true d so) tr in
  execute (VStr s) stdout stderr st =
  (Raise match subst (self st) (VStr s) None with
         | Ok _ => NameError "shlex"
         | Raise e => e
         end, st).
Proof.
  intros st. unfold execute; unfold_m; simpl.
  destruct (subst _ (VStr s) None); reflexivity.
Qed.

(** C4.  With [active] off, [execute] returns 0 and leaves the state, the
    runner and the trace of events, as it was, whatever the command. *)
Theorem execute_dry_run (command : PyVal) (stdout stderr : option Sink)
    (st : State) :
  active (self st) = false ->
  execute command stdout stderr st = (Ok (VInt 0), st).
Proof.
  intros Hactive. unfold execute; unfold_m. now rewrite Hactive.
Qed.

(** C8 (as amended).  With [verbose] on, [display] of an argv list of
    strings, or of a string that [subst] accepts, writes the rendering
    followed by a newline when the rendering does not end with one, and
    the rendering itself when it does; the written line always ends with
    a newline. *)
Theorem display_newline (act : bool) (d : Dict) (so : option string)
    (tr : list Event) :
  let st := mkState (mkCommandRunner true act d so) tr in
  let written line :=
    (Ok tt, mkState (self st)
              (tr ++ [EWrite "stdout" line; EFlush "stdout"; EFlush "stdout"])) in
  let terminated r := if endswith r NL then r else r +:+ NL in
  (forall parts : list string,
      display (VList (map VStr parts)) st = written (terminated (join " " parts))) /\
  (forall s s' : string,
      subst (self st) (VStr s) None = Ok (VStr s') ->
      display (VStr s) st = written (terminated s')) /\
  (forall r : string, endswith (terminated r) NL = true).
Proof.
  intros st written terminated. repeat split.
  - intros parts. unfold display; unfold_m; simpl.
    rewrite str_items_map. unfold written, terminated.
    destruct (endswith (join " " parts) NL); simpl;
      now rewrite <- !app_assoc.
  - intros s s' Hs. unfold display; unfold_m; simpl.
    simpl in Hs. rewrite Hs. unfold written, terminated.
    destruct (endswith s' NL); simpl; now rewrite <- !app_assoc.
  - intros r. unfold terminated.
    destruct (endswith r NL) eqn:Hr; [exact Hr | apply endswith_append].
Qed.

End ExecutorFacts.

(** The string [a] followed by two newlines is written as it is, with
    both newlines. *)
Lemma display_two_newlines :
  let line := "a" +:+ NL +:+ NL in
  @display demo_host (VStr line) demo_state
  = (Ok tt, mkState demo_runner
              [EWrite "stdout" line; EFlush "stdout"; EFlush "stdout"]) /\
  endswith line (NL +:+ NL) = true.
Proof. split; reflexivity. Qed.

Lemma execute_dry_run_witness :
  @execute demo_host (VTuple [VFunc "chdir"; VStr "/tmp"]) None None
    (mkState (CommandRunner_init true false ∅) [])
  = (Ok (VInt 0), mkState (CommandRunner_init true false ∅) []).
Proof. apply (@execute_dry_run demo_host). reflexivity. Defined.

Lemma display_newline_witness :
  @display demo_host (VStr "make %(target)s")
    (mkState (mkCommandRunner true true {[ "target" := "all" ]} None) [])
  = (Ok tt, mkState (mkCommandRunner true true {[ "target" := "all" ]} None)
              [EWrite "stdout" ("make all" +:+ NL); EFlush "stdout";
               EFlush "stdout"]).
Proof.
  apply (proj1 (proj2 (@display_newline demo_host true
                         {[ "target" := "all" ]} None []))
           "make %(target)s" "make all").
  reflexivity.
Defined.

(** ** The matrix: run_tests, run_formats and the exit code *)

Lemma combine_app_eq {A B} (a1 a2 : list A) (b1 b2 : list B) :
  length a1 = length b1 ->
  combine (a1 ++ a2) (b1 ++ b2) = combine a1 b1 ++ combine a2 b2.
Proof.
  revert b1; induction a1 as [|x a1 IH]; intros [|y b1] Hlen;
    simpl in *; try discriminate; [reflexivity|].
  f_equal. apply IH. lia.
Qed.

Lemma classify_int (z : Z) (test : string) (l : Ledgers) :
  classify (VInt z) test l =
  if (z =? 2)%Z then mkLedgers (passed l) (failed l) (no_result l ++ [test])
  else if (z =? 0)%Z then mkLedgers (passed l ++ [test]) (failed l) (no_result l)
  else mkLedgers (passed l) (failed l ++ [test]) (no_result l).
Proof.
  unfold classify; simpl. destruct (z =? 2)%Z; [reflexivity|].
  destruct (z =? 0)%Z; reflexivity.
Qed.

Lemma file_runs_ledgers (runs : list (string * Z)) (l : Ledgers) :
  let l' := file_runs runs l in
  no_result l' =
    no_result l ++ map fst (List.filter (fun r => (snd r =? 2)%Z) runs) /\
  failed l' =
    failed l ++
    map fst (List.filter
               (fun r => negb (snd r =? 2)%Z && negb (snd r =? 0)%Z) runs) /\
  passed l' =
    passed l ++ map fst (List.filter (fun r => (snd r =? 0)%Z) runs).
Proof.
  revert l; induction runs as [|[t z] runs IH]; intros l; simpl.
  - now rewrite !app_nil_r.
  - destruct (IH (classify (VInt z) t l)) as (Hn & Hf & Hp).
    unfold file_runs in *; simpl.
    rewrite Hn, Hf, Hp, classify_int. clear.
    destruct (z =? 2)%Z eqn:H2; simpl.
    + assert ((z =? 0)%Z = false) as -> by lia. simpl.
      now rewrite <- app_assoc.
    + destruct (z =? 0)%Z; simpl; now rewrite <- app_assoc.
Qed.

Lemma file_runs_total (runs : list (string * Z)) (l : Ledgers) :
  let l' := file_runs runs l in
  (length (passed l') + length (failed l') + length (no_result l')
   = length (passed l) + length (failed l) + length (no_result l)
     + length runs)%nat.
Proof.
  revert l; induction runs as [|[t z] runs IH]; intros l; simpl.
  - lia.
  - specialize (IH (classify (VInt z) t l)). unfold file_runs in *; simpl.
    simpl in IH. rewrite IH, classify_int.
    destruct (z =? 2)%Z; [|destruct (z =? 0)%Z]; simpl;
      rewrite length_app; simpl; lia.
Qed.

Section MatrixFacts.
Context `{Host}.

(** The status [execute] returns for an argv list is an integer. *)
Lemma execute_list_int (items : list PyVal) (stdout stderr : option Sink)
    (st st' : State) (v : PyVal) :
  execute (VList items) stdout stderr st = (Ok v, st') -> exists z, v = VInt z.
Proof.
  unfold execute; unfold_m; simpl.
  destruct (negb (active (self st))).
  - intros [= <- _]. eauto.
  - unfold Popen_wait.
    destruct (popen_result _ _ _ _ _) as [[rc output]|e]; [|discriminate].
    destruct stdout as [[]|]; simpl; intros [= <- _]; eauto.
Qed.

Lemma run_list_int (items : list PyVal) (stdout stderr : option Sink)
    (st st' : State) (v : PyVal) :
  run (VList items) None stdout stderr st = (Ok v, st') -> exists z, v = VInt z.
Proof.
  unfold run, bind.
  destruct (display (VList items) st) as [[[]|e] st1]; [|discriminate].
  apply execute_list_int.
Qed.

Lemma run_tests_statuses (tests : list string) (l l' : Ledgers)
    (st st' : State) :
  run_tests tests l st = (Ok l', st') ->
  exists statuses : list Z,
    length statuses = length tests /\
    l' = file_runs (combine tests statuses) l.
Proof.
  revert l st; induction tests as [|t tests IH]; intros l st; simpl.
  - intros [= <- _]. exists []. split; reflexivity.
  - unfold bind at 1.
    destruct (run _ None _ _ st) as [[v|e] st1] eqn:Hrun; [|discriminate].
    apply run_list_int in Hrun as [z ->].
    intros Hrest. apply IH in Hrest as (statuses & Hlen & ->).
    exists (z :: statuses). split; [simpl; lia | reflexivity].
Qed.

Lemma run_formats_statuses (quiet : bool) (formats tests : list string)
    (l l' : Ledgers) (st st' : State) :
  run_formats quiet formats tests l st = (Ok l', st') ->
  exists statuses : list Z,
    length statuses = (length formats * length tests)%nat /\
    l' = file_runs (combine (flat_map (fun _ => tests) formats) statuses) l.
Proof.
  revert l st; induction formats as [|f formats IH]; intros l st; simpl.
  - intros [= <- _]. exists []. split; reflexivity.
  - destruct quiet; unfold_m; simpl;
      (destruct (run_tests tests l _) as [[l1|e2] st2] eqn:Htests;
       [|discriminate]);
    apply run_tests_statuses in Htests as (s1 & Hlen1 & ->);
    intros Hrest; apply IH in Hrest as (s2 & Hlen2 & ->);
    (exists (s1 ++ s2); split;
     [ rewrite length_app; lia
     | rewrite combine_app_eq by (now symmetry);
       unfold file_runs; now rewrite fold_left_app ]).
Qed.

(** C10.  The status is classified by its truth value, whatever kind of
    value it is: a status that is false (0, [None], [False], an empty
    string or sequence) is filed under [passed]; the integer 2 is filed
    under [no_result], and it is the only status that is; every other
    status that is true is filed under [failed]. *)
Theorem classify_by_truth (status : PyVal) (test : string) (l : Ledgers) :
  (py_truthy status = false ->
   classify status test l
   = mkLedgers (passed l ++ [test]) (failed l) (no_result l)) /\
  classify (VInt 2) test l
  = mkLedgers (passed l) (failed l) (no_result l ++ [test]) /\
  (no_result (classify status test l) = no_result l ++ [test] ->
   status = VInt 2) /\
  (py_truthy status = true -> status <> VInt 2 ->
   classify status test l
   = mkLedgers (passed l) (failed l ++ [test]) (no_result l)).
Proof.
  assert (Hne : forall xs : list string, xs <> xs ++ [test]).
  { intros xs Heq. apply (f_equal (@length string)) in Heq.
    rewrite length_app in Heq. simpl in Heq. lia. }
  assert (Htwo : py_eq_int status 2 = true -> status = VInt 2).
  { destruct status as [| [] | z | | | | | ]; simpl; try discriminate.
    intros Hz. f_equal. lia. }
  split; [|split; [|split]].
  - intros Hfalse. unfold classify.
    destruct (py_eq_int status 2) eqn:Heq.
    + specialize (Htwo eq_refl). subst. discriminate.
    + now rewrite Hfalse.
  - reflexivity.
  - unfold classify. destruct (py_eq_int status 2) eqn:Heq.
    + intros _. now apply Htwo.
    + destruct (py_truthy status); simpl; intros Hn; now apply Hne in Hn.
  - intros Htrue Hnot. unfold classify.
    destruct (py_eq_int status 2) eqn:Heq.
    + specialize (Htwo eq_refl). contradiction.
    + now rewrite Htrue.
Qed.

End MatrixFacts.

Section ExitFacts.
Context `{Host}.

Lemma report_ok (description : string) (tests : list string) (st : State) :
  report description tests st = (Ok tt, snd (report description tests st)).
Proof.
  unfold report. destruct tests as [|t tests]; [reflexivity|].
  destruct (length (t :: tests) =? 1)%nat; reflexivity.
Qed.

Lemma main_report_ok (opts : Options) (l : Ledgers) (st : State) :
  main_report opts l st = (Ok tt, snd (main_report opts l st)).
Proof.
  unfold main_report. destruct (negb (opt_quiet opts)); [|reflexivity].
  unfold bind.
  destruct (opt_passed opts).
  - rewrite (report_ok "Passed"); simpl.
    rewrite (report_ok "Failed"); simpl.
    rewrite (report_ok "No result from"); reflexivity.
  - simpl. rewrite (report_ok "Failed"); simpl.
    rewrite (report_ok "No result from"); reflexivity.
Qed.

(** [main_run], step by step: the setup cannot fail, the formats may be
    unknown, the matrix may raise, and the reports cannot fail. *)
Lemma main_run_unfold (opts : Options) (tests : list string) (st : State) :
  main_run opts tests st =
  match format_list opts with
  | Raise e => (Raise e, matrix_start opts st)
  | Ok fl =>
      match run_formats (opt_quiet opts) fl tests no_ledgers
              (matrix_start opts st) with
      | (Raise e, st2) => (Raise e, st2)
      | (Ok l, st2) => (Ok (exit_code l), snd (main_report opts l st2))
      end
  end.
Proof.
  unfold main_run, matrix_start, main_matrix, main_setup.
  destruct (negb (opt_quiet opts)) eqn:Hq; unfold_m; simpl;
    (destruct (format_list opts) as [fl|e]; [|reflexivity]);
    (destruct (run_formats _ fl tests no_ledgers _) as [[l|e] st2];
     [|reflexivity]);
    now rewrite main_report_ok.
Qed.

(** C6.  When the formats are known and the matrix completes, [main]
    returns 1 if the [failed] ledger has an entry and 0 if it has none,
    whatever [no_result] holds; and every value [main] returns after the
    matrix is one of these two. *)
Theorem exit_policy (opts : Options) (tests : list string) (st : State) :
  (forall (fl : list string) (l : Ledgers) (st2 : State),
      format_list opts = Ok fl ->
      run_formats (opt_quiet opts) fl tests no_ledgers (matrix_start opts st)
      = (Ok l, st2) ->
      exists st3,
        main_run opts tests st
        = (Ok (if bool_decide (failed l = []) then 0 else 1)%Z, st3)) /\
  (forall (code : Z) (st3 : State),
      main_run opts tests st = (Ok code, st3) ->
      exists (fl : list string) (l : Ledgers) (st2 : State),
        format_list opts = Ok fl /\
        run_formats (opt_quiet opts) fl tests no_ledgers (matrix_start opts st)
        = (Ok l, st2) /\
        (code = 1%Z <-> failed l <> []) /\
        (code = 0%Z <-> failed l = [])).
Proof.
  split.
  - intros fl l st2 Hfl Hrun. rewrite main_run_unfold, Hfl, Hrun.
    eexists. f_equal. f_equal. unfold exit_code.
    destruct (failed l); reflexivity.
  - intros code st3. rewrite main_run_unfold.
    destruct (format_list opts) as [fl|e]; [|discriminate].
    destruct (run_formats _ fl tests no_ledgers _) as [[l|e] st2] eqn:Hrun;
      [|discriminate].
    intros [= <- _]. exists fl, l, st2. repeat split; try assumption;
      unfold exit_code; destruct (failed l); intros; congruence.
Qed.

End ExitFacts.

Lemma classify_by_truth_witness :
  classify VNone "t1" no_ledgers = mkLedgers ["t1"] [] [] /\
  classify (VInt 2) "t1" no_ledgers = mkLedgers [] [] ["t1"] /\
  (no_result (classify (VInt 2) "t1" no_ledgers) = [] ++ ["t1"] /\
   VInt 2 = VInt 2) /\
  classify (VStr "boom") "t1" no_ledgers = mkLedgers [] ["t1"] [] /\
  classify (VInt 3) "t1" no_ledgers = mkLedgers [] ["t1"] [].
Proof.
  split; [|split; [|split; [|split]]].
  - apply (proj1 (classify_by_truth VNone "t1" no_ledgers)). reflexivity.
  - apply (proj1 (proj2 (classify_by_truth VNone "t1" no_ledgers))).
  - split; [reflexivity|].
    apply (proj1 (proj2 (proj2 (classify_by_truth (VInt 2) "t1" no_ledgers)))).
    reflexivity.
  - apply (proj2 (proj2 (proj2 (classify_by_truth (VStr "boom") "t1"
                                    no_ledgers))));
      [reflexivity | discriminate].
  - apply (proj2 (proj2 (proj2 (classify_by_truth (VInt 3) "t1" no_ledgers))));
      [reflexivity | discriminate].
Defined.

Lemma exit_policy_witness :
  (exists st3,
      @main_run demo_host demo_options ["t1"; "skip"] demo_state
      = (Ok 0%Z, st3)) /\
  (exists (fl : list string) (l : Ledgers) (st2 : State),
      @format_list demo_host demo_options = Ok fl /\
      @run_formats demo_host false fl ["t1"; "t2"] no_ledgers
        (@matrix_start demo_host demo_options demo_state) = (Ok l, st2) /\
      (1%Z = 1%Z <-> failed l <> []) /\
      (1%Z = 0%Z <-> failed l = [])).
Proof.
  split.
  - eapply (proj1 (@exit_policy demo_host demo_options ["t1"; "skip"]
                     demo_state)
              ["fmtA"; "fmtB"] (mkLedgers ["t1"; "t1"] [] ["skip"; "skip"])).
    + reflexivity.
    + vm_compute. reflexivity.
  - eapply (proj2 (@exit_policy demo_host demo_options ["t1"; "t2"]
                     demo_state) 1%Z).
    vm_compute. reflexivity.
Defined.

(** ** More on CommandRunner.subst *)

Module SubstMore.
Import Format FormatFacts.

Section WithHost.
Context `{Host}.

Lemma format_text (d : Dict) (s : string) :
  no_percent s = true -> format s d = Ok s.
Proof.
  intros Hs. unfold format.
  rewrite run_steps, (steps_text d start s Hs). reflexivity.
Qed.


Lemma step_percent_percent (d : Dict) (st : FState) :
  step d st PStart "%" = Ok (emit st "%", PText).
Proof. reflexivity. Qed.



Lemma format_percent_percent (d : Dict) (pre post : string) :
  no_percent pre = true -> no_percent post = true ->
  format (pre +:+ "%%" +:+ post) d = Ok (pre +:+ "%" +:+ post).
Proof.
  intros Hpre Hpost. unfold format.
  rewrite (run_app _ _ _ _ _ _ _ (steps_text d start pre Hpre)).
  change ("%%" +:+ post) with (String "%" (String "%" post)).
  cbn [run]. rewrite step_percent, step_percent_percent.
  rewrite run_steps, (steps_text d _ post Hpost). simpl.
  now rewrite append_assoc.
Qed.

Lemma format_dangling_percent (d : Dict) (pre : string) :
  no_percent pre = true -> format (pre +:+ "%") d = Raise ValueError.
Proof.
  intros Hpre. unfold format.
  now rewrite (run_app _ _ _ _ _ _ _ (steps_text d start pre Hpre)).
Qed.

Lemma convert_error c p v e : convert c p v = Raise e -> format_error e.
Proof.
  unfold convert, format_error.
  destruct (Ascii.eqb c "s"); [discriminate|].
  destruct (Ascii.eqb c "r"); [discriminate|].
  destruct (char_in c _); [intros [= <-]; auto|].
  destruct (Ascii.eqb c "c"); [|intros [= <-]; auto].
  destruct v as [| | |[|a [|]]| | | |]; intros [= <-] || discriminate; auto.
Qed.

Lemma on_conv_error d st lj w p c e :
  on_conv d st lj w p c = Raise e -> format_error e.
Proof.
  unfold on_conv. destruct (Ascii.eqb c "%"); [discriminate|].
  destruct (consumed st); [intros [= <-]; left; reflexivity|].
  destruct (convert c p _) eqn:Hc; [discriminate|].
  intros [= <-]. eapply convert_error, Hc.
Qed.

Lemma on_lenmod_error d st lj w p c e :
  on_lenmod d st lj w p c = Raise e -> format_error e.
Proof.
  unfold on_lenmod. destruct (char_in c _); [discriminate|].
  apply on_conv_error.
Qed.

Lemma on_dot_error d st lj w c e :
  on_dot d st lj w c = Raise e -> format_error e.
Proof.
  unfold on_dot. destruct (Ascii.eqb c "."); [discriminate|].
  apply on_lenmod_error.
Qed.

Lemma on_flags_error d st lj c e :
  on_flags d st lj c = Raise e -> format_error e.
Proof.
  unfold on_flags, on_width. destruct (char_in c _); [discriminate|].
  destruct (Ascii.eqb c "*"); [intros [= <-]; left; reflexivity|].
  destruct (is_digit c); [discriminate|]. apply on_dot_error.
Qed.

Lemma step_error d st ph c e : step d st ph c = Raise e -> format_error e.
Proof.
  destruct ph as [| |depth key|lj|lj w|lj w|lj w p|lj w p]; simpl.
  - destruct (Ascii.eqb c "%"); discriminate.
  - destruct (Ascii.eqb c "("); [discriminate|]. apply on_flags_error.
  - destruct (Ascii.eqb c ")").
    + destruct depth as [|[|k]]; try discriminate;
        (destruct (d !! key); [discriminate|]);
        intros [= <-]; right; right; eauto.
    + destruct (Ascii.eqb c "("); discriminate.
  - apply on_flags_error.
  - destruct (is_digit c); [|apply on_dot_error].
    destruct (_ <? _)%N; [intros [= <-]; right; left; reflexivity|discriminate].
  - destruct (Ascii.eqb c "*"); [intros [= <-]; left; reflexivity|].
    destruct (is_digit c); [discriminate|]. apply on_lenmod_error.
  - destruct (is_digit c); [|apply on_lenmod_error].
    destruct (_ <? _)%N; [intros [= <-]; right; left; reflexivity|discriminate].
  - apply on_conv_error.
Qed.

Lemma run_error d st ph s e : run d st ph s = Raise e -> format_error e.
Proof.
  revert st ph; induction s as [|c s IH]; intros st ph; simpl.
  - destruct ph; try discriminate; intros [= <-]; right; left; reflexivity.
  - destruct (step d st ph c) as [[st' ph']|e'] eqn:Hstep; [apply IH|].
    intros [= <-]. eapply step_error, Hstep.
Qed.

(** The loop does not look at the text it has produced: text put before
    it stays before it. *)
Lemma on_conv_shift x d st lj w p c :
  on_conv d (shift x st) lj w p c = shift_result x (on_conv d st lj w p c).
Proof.
  unfold on_conv, shift, emit; simpl.
  destruct (Ascii.eqb c "%"); [simpl; now rewrite append_assoc|].
  destruct (consumed st); [reflexivity|].
  destruct (convert c p _); simpl; [now rewrite append_assoc | reflexivity].
Qed.

Lemma on_lenmod_shift x d st lj w p c :
  on_lenmod d (shift x st) lj w p c = shift_result x (on_lenmod d st lj w p c).
Proof.
  unfold on_lenmod. destruct (char_in c _); [reflexivity|].
  apply on_conv_shift.
Qed.

Lemma on_dot_shift x d st lj w c :
  on_dot d (shift x st) lj w c = shift_result x (on_dot d st lj w c).
Proof.
  unfold on_dot. destruct (Ascii.eqb c "."); [reflexivity|].
  apply on_lenmod_shift.
Qed.

Lemma on_flags_shift x d st lj c :
  on_flags d (shift x st) lj c = shift_result x (on_flags d st lj c).
Proof.
  unfold on_flags, on_width. destruct (char_in c _); [reflexivity|].
  destruct (Ascii.eqb c "*"); [reflexivity|].
  destruct (is_digit c); [reflexivity|]. apply on_dot_shift.
Qed.

Lemma step_shift x d st ph c :
  step d (shift x st) ph c = shift_result x (step d st ph c).
Proof.
  destruct ph as [| |depth key|lj|lj w|lj w|lj w p|lj w p]; simpl.
  - destruct (Ascii.eqb c "%"); [reflexivity|].
    unfold shift, emit; simpl. now rewrite append_assoc.
  - destruct (Ascii.eqb c "("); [reflexivity|]. apply on_flags_shift.
  - destruct (Ascii.eqb c ")").
    + destruct depth as [|[|k]]; try reflexivity;
        destruct (d !! key); reflexivity.
    + destruct (Ascii.eqb c "("); reflexivity.
  - apply on_flags_shift.
  - destruct (is_digit c); [|apply on_dot_shift].
    destruct (_ <? _)%N; reflexivity.
  - destruct (Ascii.eqb c "*"); [reflexivity|].
    destruct (is_digit c); [reflexivity|]. apply on_lenmod_shift.
  - destruct (is_digit c); [|apply on_lenmod_shift].
    destruct (_ <? _)%N; reflexivity.
  - apply on_conv_shift.
Qed.

Lemma run_shift x d st ph s :
  run d (shift x st) ph s =
  match run d st ph s with
  | Ok text => Ok (x +:+ text)
  | Raise e => Raise e
  end.
Proof.
  revert st ph; induction s as [|c s IH]; intros st ph; simpl.
  - destruct ph; reflexivity.
  - rewrite step_shift.
    destruct (step d st ph c) as [[st' ph']|e]; simpl; [apply IH|reflexivity].
Qed.

(** A doubled percent sign in a place where the loop is in text puts one
    percent sign into the result, at the place the text before it has
    reached, and changes nothing else. *)
Lemma format_insert_percent (d : Dict) (pre post a full : string) :
  format pre d = Ok a ->
  format (pre +:+ post) d = Ok full ->
  exists b,
    full = a +:+ b /\
    format (pre +:+ "%%" +:+ post) d = Ok (a +:+ "%" +:+ b).
Proof.
  intros Hpre Hfull.
  apply format_ok_steps in Hpre as (st & Hsteps & <-).
  unfold format in *.
  rewrite (run_app _ _ _ _ _ _ _ Hsteps) in Hfull.
  rewrite (run_app _ _ _ _ _ _ _ Hsteps).
  change ("%%" +:+ post) with (String "%" (String "%" post)).
  cbn [run]. rewrite step_percent, step_percent_percent.
  set (st0 := mkFState EmptyString (operand st) (consumed st)).
  assert (Hst : st = shift (out st) st0).
  { unfold shift, st0; simpl. rewrite append_nil_r. now destruct st. }
  assert (Hemit : emit st "%" = shift (out st +:+ "%") st0).
  { unfold shift, emit, st0; simpl. now rewrite append_nil_r. }
  rewrite Hemit, run_shift. rewrite Hst, run_shift in Hfull.
  destruct (run d st0 PText post) as [b|e]; [|discriminate].
  injection Hfull as <-. exists b. simpl.
  split; [reflexivity|]. now rewrite append_assoc.
Qed.

Lemma format_incomplete (d : Dict) (pre a : string) :
  format pre d = Ok a -> format (pre +:+ "%") d = Raise ValueError.
Proof.
  intros Hpre. apply format_ok_steps in Hpre as (st & Hsteps & _).
  unfold format. now rewrite (run_app _ _ _ _ _ _ _ Hsteps).
Qed.

End WithHost.
End SubstMore.

Section SubstExtra.
Context `{Host}.

(** X1.  A template without a percent sign is returned as it is, whatever the
    dictionary. *)
Theorem subst_plain_text (cr : CommandRunner) (s : string)
    (dictionary : option Dict) :
  no_percent s = true -> subst cr (VStr s) dictionary = Ok (VStr s).
Proof.
  intros Hs. unfold subst. destruct (py_truthy _); [|reflexivity].
  simpl. now rewrite SubstMore.format_text.
Qed.


(** X3.  Let [d] be the dictionary [subst] uses and let it not be empty.
    In a template [pre ++ "%%" ++ post] in which [pre] formats without
    error to [a], and which formats when the doubled percent sign is left
    out, the doubled sign becomes a single one and nothing else changes:
    the result is that of [pre ++ post] with one percent sign put in
    after [a].  With an empty dictionary the template comes back with the
    sign still doubled. *)
Theorem subst_percent_escape (cr : CommandRunner) (dictionary : option Dict)
    (pre post a full : string) :
  let d := default (_subst_dictionary cr) dictionary in
  d <> ∅ ->
  Format.format pre d = Ok a ->
  Format.format (pre +:+ post) d = Ok full ->
  (exists b,
      full = a +:+ b /\
      subst cr (VStr (pre +:+ "%%" +:+ post)) dictionary
      = Ok (VStr (a +:+ "%" +:+ b))) /\
  subst cr (VStr (pre +:+ "%%" +:+ post)) (Some ∅)
  = Ok (VStr (pre +:+ "%%" +:+ post)).
Proof.
  intros d Hd Hpre Hfull. split; [|reflexivity].
  destruct (SubstMore.format_insert_percent d pre post a full Hpre Hfull)
    as (b & Hb & Hfmt).
  exists b. split; [exact Hb|].
  unfold subst.
  assert (Heq : match dictionary with
                | Some d' => d'
                | None => _subst_dictionary cr
                end = d) by (destruct dictionary; reflexivity).
  rewrite Heq. apply truthy_dict in Hd. rewrite Hd. simpl.
  now rewrite Hfmt.
Qed.

(** X4.  [subst] never raises [TypeError].  With a dictionary that is
    not empty, a template made of a text that formats without error and
    one more percent sign at its end raises [ValueError]: the incomplete
    format is not swallowed. *)
Theorem subst_errors (cr : CommandRunner) (dictionary : option Dict) :
  let d := default (_subst_dictionary cr) dictionary in
  (forall (v : PyVal) (e : exn),
      subst cr v dictionary = Raise e -> e <> TypeError) /\
  (forall pre a : string,
      d <> ∅ -> Format.format pre d = Ok a ->
      subst cr (VStr (pre +:+ "%")) dictionary = Raise ValueError).
Proof.
  intros d. split.
  - intros v e. unfold subst.
    destruct (py_truthy _); [|discriminate].
    destruct (py_mod v _) as [v'|e']; [discriminate|].
    destruct e'; intros [= <-] || discriminate; discriminate.
  - intros pre a Hd Hpre. unfold subst.
    assert (Heq : match dictionary with
                  | Some d' => d'
                  | None => _subst_dictionary cr
                  end = d) by (destruct dictionary; reflexivity).
    rewrite Heq. apply truthy_dict in Hd. rewrite Hd. simpl.
    now rewrite (SubstMore.format_incomplete d pre a Hpre).
Qed.

End SubstExtra.

Lemma subst_plain_text_witness :
  @subst demo_host demo_runner (VStr "python setup.py")
    (Some {[ "x" := "A" ]}) = Ok (VStr "python setup.py").
Proof. apply (@subst_plain_text demo_host). reflexivity. Defined.


Lemma subst_percent_escape_witness :
  (exists b,
      "A 100 of B" = "A 100" +:+ b /\
      @subst demo_host
        (mkCommandRunner true true {[ "x" := "A"; "y" := "B" ]} None)
        (VStr "%(x)s 100%% of %(y)s") None
      = Ok (VStr ("A 100" +:+ "%" +:+ b))) /\
  @subst demo_host
    (mkCommandRunner true true {[ "x" := "A"; "y" := "B" ]} None)
    (VStr "%(x)s 100%% of %(y)s") (Some ∅)
  = Ok (VStr "%(x)s 100%% of %(y)s").
Proof.
  apply (@subst_percent_escape demo_host
           (mkCommandRunner true true {[ "x" := "A"; "y" := "B" ]} None) None
           "%(x)s 100" " of %(y)s" "A 100" "A 100 of B").
  - apply insert_non_empty.
  - reflexivity.
  - reflexivity.
Defined.

Lemma subst_errors_witness :
  (@subst demo_host demo_runner (VStr "%(y)s") (Some {[ "x" := "A" ]})
   = Raise (KeyError "y") /\
   KeyError "y" <> TypeError) /\
  @subst demo_host demo_runner (VStr "%(x)s 100%") (Some {[ "x" := "A" ]})
  = Raise ValueError.
Proof.
  pose proof (@subst_errors demo_host demo_runner (Some {[ "x" := "A" ]}))
    as (Hnever & Hincomplete).
  split; [split|].
  - reflexivity.
  - apply (Hnever (VStr "%(y)s")). reflexivity.
  - apply (Hincomplete "%(x)s 100" "A 100");
      [apply singleton_not_empty | reflexivity].
Defined.

(** ** More on display, execute and run *)

Section ExecutorExtra.
Context `{Host}.

Lemma terminated_endswith (r : string) : endswith (terminated r) NL = true.
Proof.
  unfold terminated.
  destruct (endswith r NL) eqn:Hr; [exact Hr | apply endswith_append].
Qed.

Lemma display_write (st : State) (s : string) :
  bind (Unbuffered_write "stdout"
          (if negb (endswith s NL) then s +:+ NL else s))
       (fun _ => Unbuffered_flush "stdout") st
  = (Ok tt, wrote st (terminated s)).
Proof.
  unfold wrote, terminated; unfold_m; simpl.
  destruct (endswith s NL); simpl; now rewrite <- !app_assoc.
Qed.

(** [display] with [verbose] on, in three steps. *)
Lemma display_verbose (command : PyVal) (st : State) :
  verbose (self st) = true ->
  display command st =
  match (if is_tuple command then
           match first_item command with
           | Ok func => match func_name func with
                        | Ok _ => None
                        | Raise e => Some e
                        end
           | Raise e => Some e
           end
         else None) with
  | Some e => (Raise e, st)
  | None =>
      match (if is_list command then
               match str_items (list_items command) with
               | Ok parts => Ok (VStr (join " " parts))
               | Raise e => Raise e
               end
             else subst (self st) command None) with
      | Ok (VStr s) => (Ok tt, wrote st (terminated s))
      | Ok _ => (Raise AttributeError, st)
      | Raise e => (Raise e, st)
      end
  end.
Proof.
  intros Hv. unfold display. unfold bind at 1. unfold get_self. rewrite Hv.
  cbn [negb]. unfold bind at 1.
  destruct (is_tuple command).
  - unfold bind at 1. unfold lift at 1.
    destruct (first_item command) as [func|e]; [|reflexivity].
    unfold bind at 1. unfold lift at 1.
    destruct (func_name func) as [name|e]; [|reflexivity].
    unfold ret at 1. unfold bind at 1.
    destruct (is_list command).
    + unfold bind at 1. unfold lift at 1.
      destruct (str_items _); [|reflexivity].
      unfold ret at 1. apply display_write.
    + unfold lift at 1. destruct (subst _ _ _) as [[]|]; try reflexivity.
      apply display_write.
  - unfold ret at 1. unfold bind at 1.
    destruct (is_list command).
    + unfold bind at 1. unfold lift at 1.
      destruct (str_items _); [|reflexivity].
      unfold ret at 1. apply display_write.
    + unfold lift at 1. destruct (subst _ _ _) as [[]|]; try reflexivity.
      apply display_write.
Qed.

Lemma display_argv (parts : list string) (st : State) :
  verbose (self st) = true ->
  display (VList (map VStr parts)) st
  = (Ok tt, wrote st (terminated (join " " parts))).
Proof.
  intros Hv. rewrite (display_verbose _ st Hv). simpl.
  now rewrite str_items_map.
Qed.

(** X5.  [display] either does nothing because [verbose] is off, or raises
    without having written anything, or writes one line that ends with a
    newline to standard output and flushes it; it never changes the
    runner. *)
Theorem display_effect (command : PyVal) (st : State) :
  (verbose (self st) = false /\ display command st = (Ok tt, st)) \/
  (exists e, display command st = (Raise e, st)) \/
  (exists line,
      endswith line NL = true /\
      display command st = (Ok tt, wrote st line)).
Proof.
  destruct (verbose (self st)) eqn:Hv.
  2:{ left. split; [reflexivity|].
      unfold display. unfold bind, get_self. now rewrite Hv. }
  right. rewrite (display_verbose _ st Hv).
  destruct (if is_tuple command then _ else None) as [e|]; [eauto|].
  destruct (if is_list command then _ else _) as [v|e]; [|eauto].
  destruct v; eauto using terminated_endswith.
Qed.

Lemma execute_spawn (items : list PyVal) (stdout stderr : option Sink)
    (st : State) (returncode : Z) (output : string) :
  let shell := String.eqb sys_platform "win32" in
  let out := default PIPE stdout in
  let err := default STDOUT stderr in
  active (self st) = true ->
  popen_result (VList items) shell out err (trace st)
  = Ok (returncode, output) ->
  execute (VList items) stdout stderr st =
  (Ok (VInt returncode),
   mkState
     match out with
     | PIPE => mkCommandRunner (verbose (self st)) (active (self st))
                 (_subst_dictionary (self st)) (Some output)
     | _ => self st
     end
     (trace st ++ [ESpawn (VList items) shell out err returncode])).
Proof.
  intros shell out err Hactive Hpopen.
  unfold execute, Popen_wait; unfold_m; simpl. rewrite Hactive. simpl.
  subst shell out err.
  destruct stdout as [so|], stderr as [se|]; simpl in *; rewrite Hpopen;
    try destruct so; simpl; rewrite ?Hactive; reflexivity.
Qed.

Lemma execute_spawn_failure (items : list PyVal)
    (stdout stderr : option Sink) (st : State) (e : exn) :
  active (self st) = true ->
  popen_result (VList items) (String.eqb sys_platform "win32")
    (default PIPE stdout) (default STDOUT stderr) (trace st) = Raise e ->
  execute (VList items) stdout stderr st = (Raise e, st).
Proof.
  intros Hactive Hpopen.
  unfold execute, Popen_wait; unfold_m; simpl. rewrite Hactive. simpl.
  destruct stdout as [so|], stderr as [se|]; simpl in *; rewrite Hpopen;
    reflexivity.
Qed.

(** X6.  [execute] of an argv list, with [active] on, when the launch
    succeeds: the child is spawned once, with [shell] set on win32 only,
    and its exit status is returned as it is.  What the child wrote is
    kept in [self.stdout] when its output goes to a pipe (the default);
    with another sink the runner is unchanged. *)
Theorem execute_argv (items : list PyVal) (stdout stderr : option Sink)
    (st : State) (returncode : Z) (output : string) :
  let shell := String.eqb sys_platform "win32" in
  let out := default PIPE stdout in
  let err := default STDOUT stderr in
  active (self st) = true ->
  popen_result (VList items) shell out err (trace st)
  = Ok (returncode, output) ->
  execute (VList items) stdout stderr st =
  (Ok (VInt returncode),
   mkState
     match out with
     | PIPE => mkCommandRunner (verbose (self st)) (active (self st))
                 (_subst_dictionary (self st)) (Some output)
     | _ => self st
     end
     (trace st ++ [ESpawn (VList items) shell out err returncode])).
Proof.
  intros shell out err. apply execute_spawn.
Qed.

(** X7.  A launch that fails: the error leaves [execute] as it is, nothing
    is recorded as spawned and the state is untouched. *)
Theorem execute_launch_failure (items : list PyVal)
    (stdout stderr : option Sink) (st : State) (e : exn) :
  active (self st) = true ->
  popen_result (VList items) (String.eqb sys_platform "win32")
    (default PIPE stdout) (default STDOUT stderr) (trace st) = Raise e ->
  execute (VList items) stdout stderr st = (Raise e, st).
Proof. apply execute_spawn_failure. Qed.

(** X8.  [execute] of a callable command, with [active] on: the function is
    called once, in process, on the rest of the tuple; its value, or its
    error, is the outcome of [execute] unchanged, and no process is
    spawned. *)
Theorem execute_callable (name : string) (args : list PyVal)
    (stdout stderr : option Sink) (st : State) :
  active (self st) = true ->
  execute (VTuple (VFunc name :: args)) stdout stderr st =
  (call_result name args (trace st),
   mkState (self st) (trace st ++ [ECall name args])).
Proof.
  intros Hactive. unfold execute, py_call; unfold_m; simpl.
  rewrite Hactive. simpl.
  destruct (call_result name args (trace st)); reflexivity.
Qed.


(** X10.  [run] of an argv list with [active] off and [verbose] on, the
    mode of the option [-n]: the command line is written, 0 is returned
    and no process is spawned. *)
Theorem run_dry_run (parts : list string) (stdout stderr : option Sink)
    (st : State) :
  verbose (self st) = true -> active (self st) = false ->
  run (VList (map VStr parts)) None stdout stderr st
  = (Ok (VInt 0), wrote st (terminated (join " " parts))).
Proof.
  intros Hv Ha. unfold run. unfold bind at 1.
  rewrite (display_argv parts st Hv).
  unfold execute. unfold bind, get_self. simpl. now rewrite Ha.
Qed.

(** X11.  With both switches off [run] does nothing and returns 0, for
    every command and every display override. *)
Theorem run_quiet_dry_run (command : PyVal) (display_ : option PyVal)
    (stdout stderr : option Sink) (st : State) :
  verbose (self st) = false -> active (self st) = false ->
  run command display_ stdout stderr st = (Ok (VInt 0), st).
Proof.
  intros Hv Ha. unfold run, display, execute. unfold bind, get_self.
  rewrite Hv. simpl. now rewrite Ha.
Qed.

End ExecutorExtra.

(** ** More on the matrix *)

Lemma spawned_app (a b : list Event) (format : option string) :
  spawned (a ++ b) format
  = spawned a format ++ spawned b (env_last "TESTGYP_FORMAT" a format).
Proof.
  revert format; induction a as [|e a IH]; intros format; [reflexivity|].
  destruct e; simpl; rewrite IH; reflexivity.
Qed.

Lemma env_last_app (name : string) (a b : list Event) (cur : option string) :
  env_last name (a ++ b) cur = env_last name b (env_last name a cur).
Proof.
  revert cur; induction a as [|e a IH]; intros cur; [reflexivity|].
  destruct e; simpl; rewrite IH; reflexivity.
Qed.

Section MatrixExtra.
Context `{Host}.

(** What one iteration of the inner loop does to the state. *)
Lemma run_test_state (test : string) (st st' : State) (r : result PyVal) :
  run (test_command test) None (Some (Stream "stdout"))
    (Some (Stream "stderr")) st = (r, st') ->
  exists shown : list Event,
    (shown = [] \/
     exists line, shown = [EWrite "stdout" line; EFlush "stdout";
                           EFlush "stdout"]) /\
    ((active (self st) = false /\ r = Ok (VInt 0) /\
      st' = mkState (self st) (trace st ++ shown)) \/
     (active (self st) = true /\
      exists e, r = Raise e /\ st' = mkState (self st) (trace st ++ shown)) \/
     (active (self st) = true /\
      exists rc sh,
        r = Ok (VInt rc) /\
        st' = mkState (self st)
                ((trace st ++ shown) ++
                 [ESpawn (test_command test) sh (Stream "stdout")
                    (Stream "stderr") rc]))).
Proof.
  unfold run, test_command. unfold bind at 1.
  change [VStr sys_executable; VStr test]
    with (map VStr [sys_executable; test]).
  assert (Hshow : exists shown,
             (shown = [] \/
              exists line, shown = [EWrite "stdout" line; EFlush "stdout";
                                    EFlush "stdout"]) /\
             display (VList (map VStr [sys_executable; test])) st
             = (Ok tt, mkState (self st) (trace st ++ shown))).
  { destruct (verbose (self st)) eqn:Hv.
    - rewrite (display_argv _ st Hv). unfold wrote. eauto 6.
    - exists []. split; [now left|].
      unfold display, bind, get_self. rewrite Hv. simpl.
      rewrite app_nil_r. now destruct st. }
  destruct Hshow as (shown & Hshown & ->).
  set (st1 := mkState (self st) (trace st ++ shown)).
  intros Hexec. exists shown. split; [exact Hshown|].
  destruct (active (self st)) eqn:Ha.
  - right.
    destruct (popen_result (VList (map VStr [sys_executable; test]))
                (String.eqb sys_platform "win32") (Stream "stdout")
                (Stream "stderr") (trace st1)) as [[rc output]|e] eqn:Hp.
    + right. split; [reflexivity|].
      rewrite (execute_spawn _ (Some (Stream "stdout"))
                 (Some (Stream "stderr")) st1 rc output Ha Hp) in Hexec.
      injection Hexec as <- <-. eauto.
    + left. split; [reflexivity|].
      rewrite (execute_spawn_failure _ (Some (Stream "stdout"))
                 (Some (Stream "stderr")) st1 e Ha Hp) in Hexec.
      injection Hexec as <- <-. eauto.
  - left. unfold execute, bind, get_self in Hexec. simpl in Hexec.
    rewrite Ha in Hexec. simpl in Hexec. injection Hexec as <- <-. auto.
Qed.


Lemma shown_quiet (shown : list Event) :
  (shown = [] \/
   exists line, shown = [EWrite "stdout" line; EFlush "stdout";
                         EFlush "stdout"]) ->
  forall f, spawned shown f = [] /\ env_last "TESTGYP_FORMAT" shown f = f.
Proof. intros [->|[line ->]] f; split; reflexivity. Qed.

Lemma run_tests_dry (tests : list string) (l : Ledgers) (st : State) :
  active (self st) = false ->
  exists new,
    run_tests tests l st
    = (Ok (mkLedgers (passed l ++ tests) (failed l) (no_result l)),
       mkState (self st) (trace st ++ new)) /\
    forall f, spawned new f = [] /\ env_last "TESTGYP_FORMAT" new f = f.
Proof.
  revert l st; induction tests as [|t tests IH]; intros l st Ha.
  - exists []. simpl. rewrite !app_nil_r. destruct l, st. split; [reflexivity|].
    intros f; split; reflexivity.
  - simpl. unfold bind at 1.
    destruct (run _ None _ _ st) as [r st1] eqn:Hrun.
    apply (run_test_state t) in Hrun
      as (shown & Hshown & [(_ & -> & ->)|[(Ha' & _)|(Ha' & _)]]);
      try congruence.
    destruct (IH (classify (VInt 0) t l) (mkState (self st) (trace st ++ shown)) Ha)
      as (new & -> & Hnew).
    exists (shown ++ new). simpl. rewrite <- !app_assoc. split; [reflexivity|].
    intros f. rewrite spawned_app, env_last_app.
    destruct (shown_quiet shown Hshown f) as [-> ->]. apply Hnew.
Qed.

Lemma run_tests_active (tests : list string) (l l' : Ledgers)
    (st st' : State) :
  active (self st) = true ->
  run_tests tests l st = (Ok l', st') ->
  exists new,
    st' = mkState (self st) (trace st ++ new) /\
    forall f,
      spawned new f = map (fun t => (test_command t, f)) tests /\
      env_last "TESTGYP_FORMAT" new f = f.
Proof.
  revert l st st'; induction tests as [|t tests IH]; intros l st st' Ha.
  - simpl. intros [= <- <-]. exists []. rewrite app_nil_r.
    split; [now destruct st|]. intros f; split; reflexivity.
  - simpl. unfold bind at 1.
    destruct (run _ None _ _ st) as [r st1] eqn:Hrun.
    apply (run_test_state t) in Hrun
      as (shown & Hshown & [(Ha' & _)|[(_ & e & -> & _)|(_ & rc & sh & -> & ->)]]);
      try congruence; try discriminate.
    intros Hrest. apply IH in Hrest as (new & -> & Hnew); [|exact Ha].
    exists ((shown ++ [ESpawn (test_command t) sh (Stream "stdout")
                         (Stream "stderr") rc]) ++ new).
    simpl. rewrite <- !app_assoc. split; [reflexivity|].
    intros f. rewrite !spawned_app, !env_last_app.
    destruct (shown_quiet shown Hshown f) as [-> ->]. simpl.
    destruct (Hnew f) as [-> ->]. split; reflexivity.
Qed.

Lemma run_formats_dry (quiet : bool) (formats tests : list string)
    (l : Ledgers) (st : State) :
  active (self st) = false ->
  exists new,
    run_formats quiet formats tests l st
    = (Ok (mkLedgers (passed l ++ flat_map (fun _ => tests) formats)
             (failed l) (no_result l)),
       mkState (self st) (trace st ++ new)) /\
    forall f, spawned new f = [].
Proof.
  revert l st; induction formats as [|fmt formats IH]; intros l st Ha.
  - exists []. simpl. rewrite !app_nil_r. destruct l, st. split; reflexivity.
  - simpl. unfold bind at 1. unfold event at 1. unfold bind at 1.
    set (pre := if negb quiet then _ else _).
    assert (Hpre : exists shown,
               pre (mkState (self st)
                      (trace st ++ [ESetEnv "TESTGYP_FORMAT" fmt]))
               = (Ok tt, mkState (self st)
                           ((trace st ++ [ESetEnv "TESTGYP_FORMAT" fmt])
                            ++ shown)) /\
               forall f, spawned shown f = [] /\
                         env_last "TESTGYP_FORMAT" shown f = f).
    { subst pre. destruct quiet; simpl.
      - exists []. rewrite app_nil_r. split; [reflexivity|].
        intros f; split; reflexivity.
      - eexists [_; _]. unfold_m; simpl. rewrite <- !app_assoc.
        split; [reflexivity|]. intros f; split; reflexivity. }
    destruct Hpre as (shown & -> & Hshown). unfold bind at 1.
    destruct (run_tests_dry tests l
                (mkState (self st)
                   ((trace st ++ [ESetEnv "TESTGYP_FORMAT" fmt]) ++ shown)) Ha)
      as (new1 & -> & Hnew1).
    cbn [self trace].
    destruct (IH (mkLedgers (passed l ++ tests) (failed l) (no_result l))
                (mkState (self st)
                   (((trace st ++ [ESetEnv "TESTGYP_FORMAT" fmt]) ++ shown)
                    ++ new1)) Ha)
      as (new2 & -> & Hnew2).
    exists ([ESetEnv "TESTGYP_FORMAT" fmt] ++ shown ++ new1 ++ new2).
    simpl. rewrite <- !app_assoc. split; [reflexivity|].
    intros f. change (ESetEnv "TESTGYP_FORMAT" fmt :: shown ++ new1 ++ new2)
      with ([ESetEnv "TESTGYP_FORMAT" fmt] ++ shown ++ new1 ++ new2).
    rewrite !spawned_app. simpl.
    rewrite (proj1 (Hshown _)), (proj1 (Hnew1 _)), Hnew2. reflexivity.
Qed.

Lemma run_formats_active (quiet : bool) (formats tests : list string)
    (l l' : Ledgers) (st st' : State) :
  active (self st) = true ->
  run_formats quiet formats tests l st = (Ok l', st') ->
  exists new,
    st' = mkState (self st) (trace st ++ new) /\
    forall f,
      spawned new f
      = flat_map (fun fmt => map (fun t => (test_command t, Some fmt)) tests)
          formats.
Proof.
  revert l st st'; induction formats as [|fmt formats IH];
    intros l st st' Ha.
  - simpl. intros [= <- <-]. exists []. rewrite app_nil_r.
    split; [now destruct st|]. reflexivity.
  - simpl. unfold bind at 1. unfold event at 1. unfold bind at 1.
    set (pre := if negb quiet then _ else _).
    assert (Hpre : exists shown,
               pre (mkState (self st)
                      (trace st ++ [ESetEnv "TESTGYP_FORMAT" fmt]))
               = (Ok tt, mkState (self st)
                           ((trace st ++ [ESetEnv "TESTGYP_FORMAT" fmt])
                            ++ shown)) /\
               forall f, spawned shown f = [] /\
                         env_last "TESTGYP_FORMAT" shown f = f).
    { subst pre. destruct quiet; simpl.
      - exists []. rewrite app_nil_r. split; [reflexivity|].
        intros f; split; reflexivity.
      - eexists [_; _]. unfold_m; simpl. rewrite <- !app_assoc.
        split; [reflexivity|]. intros f; split; reflexivity. }
    destruct Hpre as (shown & -> & Hshown). unfold bind at 1.
    destruct (run_tests tests l _) as [[l1|e] st1] eqn:Htests; [|discriminate].
    apply run_tests_active in Htests as (new1 & -> & Hnew1); [|exact Ha].
    intros Hrest. apply IH in Hrest as (new2 & -> & Hnew2); [|exact Ha].
    exists ([ESetEnv "TESTGYP_FORMAT" fmt] ++ shown ++ new1 ++ new2).
    simpl. rewrite <- !app_assoc. split; [reflexivity|].
    intros f. change (ESetEnv "TESTGYP_FORMAT" fmt :: shown ++ new1 ++ new2)
      with ([ESetEnv "TESTGYP_FORMAT" fmt] ++ shown ++ new1 ++ new2).
    rewrite !spawned_app. simpl.
    rewrite (proj1 (Hshown _)), (proj2 (Hshown _)), (proj1 (Hnew1 _)), Hnew2.
    reflexivity.
Qed.


Lemma display_test_ok (test : string) (st : State) :
  exists shown,
    (shown = [] \/
     exists line, shown = [EWrite "stdout" line; EFlush "stdout";
                           EFlush "stdout"]) /\
    display (test_command test) st
    = (Ok tt, mkState (self st) (trace st ++ shown)).
Proof.
  unfold test_command.
  change [VStr sys_executable; VStr test]
    with (map VStr [sys_executable; test]).
  destruct (verbose (self st)) eqn:Hv.
  - rewrite (display_argv _ st Hv). unfold wrote. eauto 6.
  - exists []. split; [now left|].
    unfold display, bind, get_self. rewrite Hv. simpl.
    rewrite app_nil_r. now destruct st.
Qed.

Lemma run_tests_complete (tests : list string) (l : Ledgers) (st : State) :
  (forall c sh so se tr, exists r, popen_result c sh so se tr = Ok r) ->
  exists l' st', run_tests tests l st = (Ok l', st').
Proof.
  intros Hpopen. revert l st; induction tests as [|t tests IH]; intros l st.
  - simpl. unfold ret. eauto.
  - simpl. unfold bind at 1. unfold run. unfold bind at 1.
    destruct (display_test_ok t st) as (shown & _ & Hd).
    unfold test_command in Hd. rewrite Hd.
    set (st1 := mkState (self st) (trace st ++ shown)).
    destruct (active (self st1)) eqn:Ha.
    + destruct (Hpopen (VList [VStr sys_executable; VStr t])
                  (String.eqb sys_platform "win32") (Stream "stdout")
                  (Stream "stderr") (trace st1)) as [[rc output] Hp].
      rewrite (execute_spawn _ (Some (Stream "stdout"))
                 (Some (Stream "stderr")) st1 rc output Ha Hp).
      apply IH.
    + unfold execute, bind, get_self. rewrite Ha. simpl. apply IH.
Qed.

Lemma run_formats_complete (quiet : bool) (formats tests : list string)
    (l : Ledgers) (st : State) :
  (forall c sh so se tr, exists r, popen_result c sh so se tr = Ok r) ->
  exists l' st', run_formats quiet formats tests l st = (Ok l', st').
Proof.
  intros Hpopen. revert l st; induction formats as [|fmt formats IH];
    intros l st.
  - simpl. unfold ret. eauto.
  - simpl. unfold bind at 1. unfold event at 1. unfold bind at 1.
    destruct quiet; unfold_m; simpl;
      match goal with
      | |- context [run_tests tests l ?s] =>
          destruct (run_tests_complete tests l s Hpopen) as (l1 & st1 & ->)
      end; apply IH.
Qed.

Lemma run_formats_no_tests (quiet : bool) (formats : list string)
    (l : Ledgers) (st : State) :
  exists new,
    run_formats quiet formats [] l st
    = (Ok l, mkState (self st) (trace st ++ new)) /\
    forall f, spawned new f = [].
Proof.
  revert st; induction formats as [|fmt formats IH]; intros st.
  - exists []. simpl. rewrite app_nil_r. destruct st. split; reflexivity.
  - simpl. destruct quiet; unfold_m; simpl;
      match goal with
      | |- context [run_formats _ formats [] l ?s] =>
          destruct (IH s) as (new & -> & Hnew)
      end; simpl;
      rewrite <- !app_assoc; eexists; (split; [reflexivity|]);
      intros f; simpl; apply Hnew.
Qed.

Lemma run_test_launch_failure (test : string) (st : State) (e : exn) :
  active (self st) = true ->
  (forall tr,
      popen_result (test_command test) (String.eqb sys_platform "win32")
        (Stream "stdout") (Stream "stderr") tr = Raise e) ->
  exists shown,
    run (test_command test) None (Some (Stream "stdout"))
      (Some (Stream "stderr")) st
    = (Raise e, mkState (self st) (trace st ++ shown)) /\
    forall f, spawned shown f = [].
Proof.
  intros Ha Hpopen. unfold run. unfold bind at 1.
  destruct (display_test_ok test st) as (shown & Hshown & ->).
  exists shown. split; [|intros f; now apply shown_quiet].
  apply (execute_spawn_failure _ (Some (Stream "stdout"))
           (Some (Stream "stderr")) (mkState (self st) (trace st ++ shown)) e);
    [exact Ha | apply Hpopen].
Qed.

Lemma run_formats_launch_failure (quiet : bool) (fmt test : string)
    (formats tests : list string) (l : Ledgers) (st : State) (e : exn) :
  active (self st) = true ->
  (forall tr,
      popen_result (test_command test) (String.eqb sys_platform "win32")
        (Stream "stdout") (Stream "stderr") tr = Raise e) ->
  exists new,
    run_formats quiet (fmt :: formats) (test :: tests) l st
    = (Raise e, mkState (self st) (trace st ++ new)) /\
    forall f, spawned new f = [].
Proof.
  intros Ha Hpopen. simpl.
  destruct quiet; unfold_m; simpl;
    match goal with
    | |- context [run _ None _ _ ?s] =>
        destruct (run_test_launch_failure test s e Ha Hpopen)
          as (shown & Hrun & Hshown);
        unfold test_command in Hrun; rewrite Hrun
    end; simpl; rewrite <- !app_assoc; eexists; (split; [reflexivity|]);
    intros f; simpl; apply Hshown.
Qed.

(** *** The statuses the ledgers are filled from *)

Lemma spawn_codes_app (a b : list Event) :
  spawn_codes (a ++ b) = spawn_codes a ++ spawn_codes b.
Proof.
  induction a as [|e a IH]; [reflexivity|].
  destruct e; simpl; now rewrite IH.
Qed.

Lemma answered_app (pre a b : list Event) :
  answered pre a -> answered (pre ++ a) b -> answered pre (a ++ b).
Proof.
  revert pre; induction a as [|e a IH]; intros pre Ha Hb.
  - now rewrite app_nil_r in Hb.
  - destruct Ha as [He Ha]. split; [exact He|].
    apply IH; [exact Ha|]. now rewrite <- app_assoc.
Qed.

Lemma shown_codes (pre shown : list Event) :
  (shown = [] \/
   exists line, shown = [EWrite "stdout" line; EFlush "stdout";
                         EFlush "stdout"]) ->
  spawn_codes shown = [] /\ answered pre shown.
Proof. intros [->|[line ->]]; simpl; auto. Qed.

(** One iteration of the inner loop that returns, with [active] on: the
    status is the exit status the host gave for the test. *)
Lemma run_test_exit (test : string) (st st' : State) (v : PyVal) :
  active (self st) = true ->
  run (test_command test) None (Some (Stream "stdout"))
    (Some (Stream "stderr")) st = (Ok v, st') ->
  exists new rc,
    v = VInt rc /\
    st' = mkState (self st) (trace st ++ new) /\
    spawn_codes new = [rc] /\ answered (trace st) new.
Proof.
  intros Ha. unfold run. unfold bind at 1.
  destruct (display_test_ok test st) as (shown & Hshown & ->).
  set (st1 := mkState (self st) (trace st ++ shown)).
  unfold test_command.
  destruct (popen_result (VList [VStr sys_executable; VStr test])
              (String.eqb sys_platform "win32") (Stream "stdout")
              (Stream "stderr") (trace st1)) as [[rc output]|e] eqn:Hp.
  - rewrite (execute_spawn _ (Some (Stream "stdout"))
               (Some (Stream "stderr")) st1 rc output Ha Hp).
    intros [= <- <-].
    destruct (shown_codes (trace st) shown Hshown) as [Hcodes Hans].
    exists (shown ++ [ESpawn (VList [VStr sys_executable; VStr test])
                        (String.eqb sys_platform "win32") (Stream "stdout")
                        (Stream "stderr") rc]), rc.
    repeat split.
    + simpl. now rewrite app_assoc.
    + now rewrite spawn_codes_app, Hcodes.
    + apply answered_app; [exact Hans|]. simpl. split; [|exact I].
      exists output. exact Hp.
  - rewrite (execute_spawn_failure _ (Some (Stream "stdout"))
               (Some (Stream "stderr")) st1 e Ha Hp).
    discriminate.
Qed.

Lemma run_tests_codes (tests : list string) (l l' : Ledgers)
    (st st' : State) :
  active (self st) = true ->
  run_tests tests l st = (Ok l', st') ->
  exists new,
    st' = mkState (self st) (trace st ++ new) /\
    length (spawn_codes new) = length tests /\
    l' = file_runs (combine tests (spawn_codes new)) l /\
    answered (trace st) new.
Proof.
  revert l l' st st'; induction tests as [|t tests IH];
    intros l l' st st' Ha.
  - simpl. intros [= <- <-]. exists []. rewrite app_nil_r.
    destruct st. repeat split.
  - simpl. unfold bind at 1.
    destruct (run _ None _ _ st) as [[v|e] st1] eqn:Hrun; [|discriminate].
    apply (run_test_exit t) in Hrun as (new1 & rc & -> & -> & Hc1 & Ha1);
      [|exact Ha].
    intros Hrest. apply IH in Hrest as (new2 & -> & Hlen & -> & Ha2);
      [|exact Ha].
    exists (new1 ++ new2). simpl. rewrite spawn_codes_app, Hc1. simpl.
    repeat split.
    + now rewrite app_assoc.
    + now rewrite Hlen.
    + now apply answered_app.
Qed.

Lemma run_formats_codes (quiet : bool) (formats tests : list string)
    (l l' : Ledgers) (st st' : State) :
  active (self st) = true ->
  run_formats quiet formats tests l st = (Ok l', st') ->
  exists new,
    st' = mkState (self st) (trace st ++ new) /\
    length (spawn_codes new) = (length formats * length tests)%nat /\
    l' = file_runs (combine (flat_map (fun _ => tests) formats)
                      (spawn_codes new)) l /\
    answered (trace st) new.
Proof.
  revert l l' st st'; induction formats as [|fmt formats IH];
    intros l l' st st' Ha.
  - simpl. intros [= <- <-]. exists []. rewrite app_nil_r.
    destruct st. repeat split.
  - simpl. unfold bind at 1. unfold event at 1. unfold bind at 1.
    set (pre := if negb quiet then _ else _).
    assert (Hpre : exists shown,
               pre (mkState (self st)
                      (trace st ++ [ESetEnv "TESTGYP_FORMAT" fmt]))
               = (Ok tt, mkState (self st)
                           ((trace st ++ [ESetEnv "TESTGYP_FORMAT" fmt])
                            ++ shown)) /\
               spawn_codes shown = [] /\
               forall before, answered before shown).
    { subst pre. destruct quiet; simpl.
      - exists []. rewrite app_nil_r. repeat split.
      - eexists [_; _]. unfold_m; simpl. rewrite <- !app_assoc.
        repeat split. }
    destruct Hpre as (shown & -> & Hc0 & Ha0). unfold bind at 1.
    destruct (run_tests tests l _) as [[l1|e] st1] eqn:Htests; [|discriminate].
    apply run_tests_codes in Htests as (new1 & -> & Hlen1 & -> & Ha1);
      [|exact Ha].
    intros Hrest. apply IH in Hrest as (new2 & -> & Hlen2 & -> & Ha2);
      [|exact Ha].
    cbn [self trace] in *.
    assert (Hans : answered (trace st)
                     (([ESetEnv "TESTGYP_FORMAT" fmt] ++ shown)
                      ++ new1 ++ new2)).
    { apply answered_app.
      - apply answered_app; [split; exact I | apply Ha0].
      - rewrite app_assoc. apply answered_app; [exact Ha1 | exact Ha2]. }
    exists (([ESetEnv "TESTGYP_FORMAT" fmt] ++ shown) ++ new1 ++ new2).
    split; [|split; [|split; [|exact Hans]]].
    + now rewrite <- !app_assoc.
    + rewrite !spawn_codes_app, Hc0. cbn [spawn_codes app].
      rewrite length_app. lia.
    + rewrite !spawn_codes_app, Hc0. cbn [spawn_codes app].
      rewrite combine_app_eq by (now symmetry).
      unfold file_runs. now rewrite fold_left_app.
Qed.

Lemma file_runs_zeros (tests : list string) (l : Ledgers) :
  file_runs (combine tests (map (fun _ => 0%Z) tests)) l
  = mkLedgers (passed l ++ tests) (failed l) (no_result l).
Proof.
  revert l; induction tests as [|t tests IH]; intros l.
  - simpl. rewrite app_nil_r. now destruct l.
  - unfold file_runs in *. simpl. rewrite IH. simpl.
    now rewrite <- app_assoc.
Qed.

(** C5.  When the loop over the formats and the tests completes, each run
    (a format and a test, formats outside and tests inside) has one
    status: with [active] on, the exit status the host gave for the
    process spawned for it, with [active] off, 0.  The three ledgers
    partition the runs, in the order of execution, by that status: 2 to
    [no_result], any other nonzero status to [failed], 0 to [passed];
    so each run is in exactly one ledger and the ledgers hold
    |formats| x |tests| entries together. *)
Theorem ledger_classification (quiet : bool) (formats tests : list string)
    (st st' : State) (l : Ledgers) :
  run_formats quiet formats tests no_ledgers st = (Ok l, st') ->
  exists new : list Event,
    let order := flat_map (fun _ => tests) formats in
    let statuses :=
      if active (self st) then spawn_codes new
      else map (fun _ => 0%Z) order in
    let runs := combine order statuses in
    trace st' = trace st ++ new /\
    (active (self st) = true -> answered (trace st) new) /\
    length statuses = (length formats * length tests)%nat /\
    no_result l = map fst (List.filter (fun r => (snd r =? 2)%Z) runs) /\
    failed l =
      map fst (List.filter
                 (fun r => negb (snd r =? 2)%Z && negb (snd r =? 0)%Z) runs) /\
    passed l = map fst (List.filter (fun r => (snd r =? 0)%Z) runs) /\
    (length (passed l) + length (failed l) + length (no_result l)
     = length formats * length tests)%nat.
Proof.
  intros Hrun.
  assert (Horder : length (flat_map (fun _ : string => tests) formats)
                   = (length formats * length tests)%nat).
  { rewrite length_flat_map. clear.
    induction formats as [|f formats IH]; simpl; [reflexivity|].
    now rewrite IH. }
  assert (Hfile : forall statuses,
             length statuses = (length formats * length tests)%nat ->
             l = file_runs
                   (combine (flat_map (fun _ => tests) formats) statuses)
                   no_ledgers ->
             let runs := combine (flat_map (fun _ => tests) formats)
                           statuses in
             no_result l
             = map fst (List.filter (fun r => (snd r =? 2)%Z) runs) /\
             failed l
             = map fst (List.filter
                          (fun r => negb (snd r =? 2)%Z && negb (snd r =? 0)%Z)
                          runs) /\
             passed l
             = map fst (List.filter (fun r => (snd r =? 0)%Z) runs) /\
             (length (passed l) + length (failed l) + length (no_result l)
              = length formats * length tests)%nat).
  { intros statuses Hlen -> runs.
    destruct (file_runs_ledgers runs no_ledgers) as (Hn & Hf & Hp).
    pose proof (file_runs_total runs no_ledgers) as Ht.
    cbv zeta in Ht. simpl in Ht.
    split; [exact Hn|]. split; [exact Hf|]. split; [exact Hp|].
    fold runs. rewrite Ht.
    unfold runs. rewrite length_combine, Horder, Hlen. lia. }
  destruct (active (self st)) eqn:Ha.
  - apply run_formats_codes in Hrun as (new & -> & Hlen & Hl & Hans);
      [|exact Ha].
    exists new. cbv zeta. split; [reflexivity|]. split; [auto|].
    split; [exact Hlen|]. now apply Hfile.
  - destruct (run_formats_dry quiet formats tests no_ledgers st Ha)
      as (new & Hdry & _).
    rewrite Hdry in Hrun. injection Hrun as <- <-.
    exists new. cbv zeta. split; [reflexivity|]. split; [discriminate|].
    split; [now rewrite length_map|].
    apply Hfile; [now rewrite length_map|].
    now rewrite file_runs_zeros.
Qed.

End MatrixExtra.

Section MainExtra.
Context `{Host}.

Lemma matrix_start_state (opts : Options) (st : State) :
  exists setup,
    matrix_start opts st = mkState (main_runner opts) (trace st ++ setup) /\
    forall f, spawned setup f = [] /\
              env_last "TESTGYP_FORMAT" setup f = f.
Proof.
  unfold matrix_start, main_setup, main_runner.
  destruct (opt_quiet opts); unfold_m; simpl; rewrite <- ?app_assoc;
    eexists; (split; [reflexivity|]); intros f; split; reflexivity.
Qed.

Lemma report_state (description : string) (tests : list string) (st : State) :
  exists w,
    snd (report description tests st) = mkState (self st) (trace st ++ w) /\
    forall f, spawned w f = [] /\ env_last "TESTGYP_FORMAT" w f = f.
Proof.
  unfold report. destruct tests as [|t tests].
  - exists []. simpl. rewrite app_nil_r. destruct st. split; [reflexivity|].
    intros f; split; reflexivity.
  - destruct (length (t :: tests) =? 1)%nat; unfold_m; simpl;
      rewrite <- !app_assoc; eexists; (split; [reflexivity|]);
      intros f; split; reflexivity.
Qed.

Lemma main_report_state (opts : Options) (l : Ledgers) (st : State) :
  exists w,
    snd (main_report opts l st) = mkState (self st) (trace st ++ w) /\
    forall f, spawned w f = [].
Proof.
  assert (Hnil : exists w : list Event,
             st = mkState (self st) (trace st ++ w) /\
             forall f, spawned w f = []).
  { exists []. rewrite app_nil_r. destruct st. split; reflexivity. }
  unfold main_report. destruct (negb (opt_quiet opts)); [|exact Hnil].
  assert (Hthen : forall d1 l1 d2 l2 s,
             exists w,
               snd (bind (report d1 l1) (fun _ => report d2 l2) s)
               = mkState (self s) (trace s ++ w) /\
               forall f, spawned w f = [] /\
                         env_last "TESTGYP_FORMAT" w f = f).
  { intros d1 l1 d2 l2 s. unfold bind. rewrite (report_ok d1 l1 s).
    destruct (report_state d1 l1 s) as (w1 & -> & Hw1).
    destruct (report_state d2 l2 (mkState (self s) (trace s ++ w1)))
      as (w2 & -> & Hw2).
    exists (w1 ++ w2). simpl. rewrite <- app_assoc. split; [reflexivity|].
    intros f. rewrite spawned_app, env_last_app.
    rewrite (proj1 (Hw1 _)), (proj2 (Hw1 _)). apply Hw2. }
  destruct (opt_passed opts).
  - unfold bind at 1. rewrite (report_ok "Passed" (passed l) st).
    destruct (report_state "Passed" (passed l) st) as (w0 & -> & Hw0).
    destruct (Hthen "Failed" (failed l) "No result from" (no_result l)
                (mkState (self st) (trace st ++ w0))) as (w & -> & Hw).
    exists (w0 ++ w). simpl. rewrite <- app_assoc. split; [reflexivity|].
    intros f. rewrite spawned_app, (proj1 (Hw0 _)). apply Hw.
  - unfold bind at 1. unfold ret at 1.
    destruct (Hthen "Failed" (failed l) "No result from" (no_result l) st)
      as (w & -> & Hw).
    exists w. split; [reflexivity|]. intros f. apply Hw.
Qed.

(** X12.  The matrix with [active] off: every test is filed under [passed]
    once for every format, and nothing is spawned. *)
Theorem matrix_dry_run (quiet : bool) (formats tests : list string)
    (st : State) :
  active (self st) = false ->
  exists new,
    run_formats quiet formats tests no_ledgers st
    = (Ok (mkLedgers (flat_map (fun _ => tests) formats) [] []),
       mkState (self st) (trace st ++ new)) /\
    forall f, spawned new f = [].
Proof.
  intros Ha. exact (run_formats_dry quiet formats tests no_ledgers st Ha).
Qed.

(** [main_run] with [active] off spawns nothing and returns 0. *)
Lemma main_run_no_exec (opts : Options) (tests fl : list string) (st : State) :
  opt_no_exec opts = true ->
  format_list opts = Ok fl ->
  exists new,
    main_run opts tests st
    = (Ok 0%Z, mkState (main_runner opts) (trace st ++ new)) /\
    forall f, spawned new f = [].
Proof.
  intros Hn Hfl. rewrite main_run_unfold, Hfl.
  destruct (matrix_start_state opts st) as (setup & -> & Hsetup).
  destruct (run_formats_dry (opt_quiet opts) fl tests no_ledgers
              (mkState (main_runner opts) (trace st ++ setup)))
    as (new & -> & Hnew).
  { simpl. now rewrite Hn. }
  match goal with
  | |- context [main_report opts ?l1 ?s1] =>
      destruct (main_report_state opts l1 s1) as (w & -> & Hw)
  end.
  exists (setup ++ new ++ w). simpl. rewrite <- !app_assoc.
  split; [reflexivity|].
  intros f. rewrite !spawned_app.
  rewrite (proj1 (Hsetup _)), Hnew, Hw. reflexivity.
Qed.

(** X14.  The matrix with [active] on, when it completes: the processes it
    spawned are, in order, one per format and test, formats outside and
    tests inside, each [sys.executable test] started while
    [TESTGYP_FORMAT] held the format of its batch. *)
Theorem matrix_coverage (quiet : bool) (formats tests : list string)
    (l l' : Ledgers) (st st' : State) :
  active (self st) = true ->
  run_formats quiet formats tests l st = (Ok l', st') ->
  exists new,
    st' = mkState (self st) (trace st ++ new) /\
    forall f,
      spawned new f
      = flat_map (fun fmt => map (fun t => (test_command t, Some fmt)) tests)
          formats.
Proof. apply run_formats_active. Qed.

(** When no launch fails [main_run] completes with 0 or 1. *)
Lemma main_run_completes (opts : Options) (tests fl : list string) (st : State) :
  format_list opts = Ok fl ->
  (forall c sh so se tr, exists r, popen_result c sh so se tr = Ok r) ->
  exists code st',
    main_run opts tests st = (Ok code, st') /\ (code = 0%Z \/ code = 1%Z).
Proof.
  intros Hfl Hpopen. rewrite main_run_unfold, Hfl.
  destruct (run_formats_complete (opt_quiet opts) fl tests no_ledgers
              (matrix_start opts st) Hpopen) as (l & st2 & ->).
  eexists _, _. split; [reflexivity|].
  unfold exit_code. destruct (failed l); auto.
Qed.

(** A launch that fails is raised out of [main_run]. *)
Lemma main_run_launch_failure (opts : Options) (fmt test : string)
    (fl tests : list string) (st : State) (e : exn) :
  opt_no_exec opts = false ->
  format_list opts = Ok (fmt :: fl) ->
  (forall tr,
      popen_result (test_command test) (String.eqb sys_platform "win32")
        (Stream "stdout") (Stream "stderr") tr = Raise e) ->
  exists new,
    main_run opts (test :: tests) st
    = (Raise e, mkState (main_runner opts) (trace st ++ new)) /\
    forall f, spawned new f = [].
Proof.
  intros Hn Hfl Hpopen. rewrite main_run_unfold, Hfl.
  destruct (matrix_start_state opts st) as (setup & -> & Hsetup).
  destruct (run_formats_launch_failure (opt_quiet opts) fmt test fl tests
              no_ledgers (mkState (main_runner opts) (trace st ++ setup)) e)
    as (new & -> & Hnew); [simpl; now rewrite Hn | exact Hpopen |].
  exists (setup ++ new). simpl. rewrite <- app_assoc. split; [reflexivity|].
  intros f. rewrite spawned_app, (proj1 (Hsetup _)), Hnew. reflexivity.
Qed.

Lemma dict_get_missing (key : string) (items : list (string * string)) :
  existsb (String.eqb key) (map fst items) = false ->
  dict_get key items = Raise (KeyError key).
Proof.
  induction items as [|[k v] items IH]; simpl; [reflexivity|].
  rewrite orb_false_iff. intros [Hk Hrest].
  rewrite String.eqb_sym, Hk. now apply IH.
Qed.

(** An unknown platform is a [KeyError] out of [main_run]. *)
Lemma main_run_unknown_platform (opts : Options) (tests : list string)
    (st : State) :
  opt_format opts = EmptyString ->
  existsb (String.eqb sys_platform) (map fst platform_format) = false ->
  main_run opts tests st = (Raise (KeyError sys_platform), matrix_start opts st).
Proof.
  intros Hf Hp. rewrite main_run_unfold. unfold format_list.
  rewrite Hf. simpl py_truthy. cbn iota.
  change (negb (String.eqb EmptyString EmptyString)) with false. cbn iota.
  now rewrite (dict_get_missing _ _ Hp).
Qed.

(** Without tests [main_run] returns 0. *)
Lemma main_run_no_tests (opts : Options) (fl : list string) (st : State) :
  format_list opts = Ok fl ->
  exists new,
    main_run opts [] st
    = (Ok 0%Z, mkState (main_runner opts) (trace st ++ new)) /\
    forall f, spawned new f = [].
Proof.
  intros Hfl. rewrite main_run_unfold, Hfl.
  destruct (matrix_start_state opts st) as (setup & -> & Hsetup).
  destruct (run_formats_no_tests (opt_quiet opts) fl no_ledgers
              (mkState (main_runner opts) (trace st ++ setup)))
    as (new & -> & Hnew).
  match goal with
  | |- context [main_report opts ?l1 ?s1] =>
      destruct (main_report_state opts l1 s1) as (w & -> & Hw)
  end.
  exists (setup ++ new ++ w). simpl. rewrite <- !app_assoc.
  split; [reflexivity|].
  intros f. rewrite !spawned_app.
  rewrite (proj1 (Hsetup _)), Hnew, Hw. reflexivity.
Qed.

End MainExtra.

(** ** The head of main *)

Section MainHead.
Context `{Host}.

Lemma print_tests_state (tests : list string) (st : State) :
  print_tests tests st
  = (Ok tt,
     mkState (self st)
       (trace st ++
        flat_map (fun t => [EWrite "stdout" t; EFlush "stdout";
                            EWrite "stdout" NL; EFlush "stdout"]) tests)).
Proof.
  revert st; induction tests as [|t tests IH]; intros st.
  - simpl. rewrite app_nil_r. now destruct st.
  - simpl. unfold_m. simpl. rewrite IH. simpl. now rewrite <- !app_assoc.
Qed.

(** X19.  Without arguments and without [-a], [main] writes its hint to
    standard error and returns 1; it runs nothing. *)
Theorem main_needs_all (opts : Options) (st : State) :
  opt_all opts = false -> opt_chdir opts = None -> opt_path opts = [] ->
  main opts [] st
  = (Ok 1%Z,
     mkState (self st)
       (trace st ++ [EWrite "stderr" ("Specify -a to get all tests." +:+ NL);
                     EFlush "stderr"])).
Proof.
  intros Hall Hchdir Hpath. unfold main. rewrite Hall, Hchdir, Hpath.
  unfold_m. simpl. now rewrite <- app_assoc.
Qed.

(** X20.  With [--list], [main] prints the tests, one on a line, and leaves
    with [SystemExit(0)]: no runner is made and no test is run. *)
Theorem main_list (opts : Options) (args : list string) (st : State) :
  opt_list opts = true -> opt_chdir opts = None -> opt_path opts = [] ->
  args <> [] ->
  let tests :=
    flat_map (fun arg =>
                if os_path_isdir arg (trace st)
                then find_all_gyptest_files (os_path_normpath arg)
                else [arg]) args in
  main opts args st
  = (Raise (SystemExit 0),
     mkState (self st)
       (trace st ++
        flat_map (fun t => [EWrite "stdout" t; EFlush "stdout";
                            EWrite "stdout" NL; EFlush "stdout"]) tests)).
Proof.
  intros Hlist Hchdir Hpath Hargs tests. unfold main.
  rewrite Hlist, Hchdir, Hpath.
  destruct args as [|arg args]; [congruence|].
  unfold bind at 1. unfold ret at 1. unfold bind at 1. unfold ret at 1.
  unfold bind at 1. unfold collect_tests at 1. fold tests.
  unfold bind at 1. rewrite print_tests_state. reflexivity.
Qed.


End MainHead.

(** ** find_all_gyptest_files *)

Lemma insert_sorted_perm (x : string) (l : list string) :
  Permutation (x :: l) (insert_sorted x l).
Proof.
  induction l as [|y l IH]; simpl; [reflexivity|].
  destruct (String.leb x y); [reflexivity|].
  rewrite perm_swap. now apply perm_skip.
Qed.

Lemma sort_strings_perm (l : list string) : Permutation l (sort_strings l).
Proof.
  induction l as [|x l IH]; simpl; [reflexivity|].
  rewrite <- insert_sorted_perm. now apply perm_skip.
Qed.

Lemma insert_sorted_sorted (x : string) (l : list string) :
  Sorted str_le l -> Sorted str_le (insert_sorted x l).
Proof.
  induction l as [|y l IH]; intros Hs; simpl.
  - repeat constructor.
  - destruct (String.leb x y) eqn:Hxy.
    + constructor; [exact Hs|]. constructor. exact Hxy.
    + inversion Hs as [|? ? Hs' Hhd]; subst.
      constructor; [now apply IH|].
      assert (Hyx : str_le y x).
      { destruct (String.leb_total x y) as [Hle|Hle]; [congruence|exact Hle]. }
      destruct l as [|z l]; simpl.
      * constructor. exact Hyx.
      * destruct (String.leb x z); constructor; [exact Hyx|].
        now inversion Hhd.
Qed.

Lemma sort_strings_sorted (l : list string) : Sorted str_le (sort_strings l).
Proof.
  induction l as [|x l IH]; simpl; [constructor|].
  now apply insert_sorted_sorted.
Qed.

Lemma str_le_trans (a b c : string) : str_le a b -> str_le b c -> str_le a c.
Proof.
  unfold str_le. intros Hab Hbc.
  apply Is_true_true. apply Is_true_true in Hab, Hbc.
  exact (transitivity (R := String.le) Hab Hbc).
Qed.

Lemma walk_unfold (root : string) (subdirs : list (string * Tree))
    (files : list string) :
  walk_gyptest root (Dir subdirs files) =
  gyptest_files root files ++
  flat_map (fun ns =>
              if existsb (String.eqb (fst ns)) (prune_svn (map fst subdirs))
              then walk_gyptest (os_path_join root (fst ns)) (snd ns)
              else []) subdirs.
Proof.
  simpl. f_equal.
  generalize (prune_svn (map fst subdirs)) as dirs. intros dirs.
  induction subdirs as [|[name sub] subdirs IH]; simpl; [reflexivity|].
  now rewrite IH.
Qed.

Lemma existsb_eqb_In (x : string) (l : list string) :
  existsb (String.eqb x) l = true <-> In x l.
Proof.
  rewrite existsb_exists. split.
  - intros (y & Hy & Heq). apply String.eqb_eq in Heq. now subst.
  - intros Hin. exists x. split; [exact Hin | apply String.eqb_refl].
Qed.

Lemma existsb_eqb_notin (x : string) (l : list string) :
  ~ In x l -> existsb (String.eqb x) l = false.
Proof.
  intros Hnot. destruct (existsb (String.eqb x) l) eqn:He; [|reflexivity].
  apply existsb_eqb_In in He. contradiction.
Qed.

Lemma list_remove_first (x : string) (a b : list string) :
  ~ In x a -> list_remove x (a ++ x :: b) = a ++ b.
Proof.
  induction a as [|y a IH]; simpl; intros Hnot.
  - now rewrite String.eqb_refl.
  - destruct (String.eqb y x) eqn:Hyx.
    + apply String.eqb_eq in Hyx. subst. tauto.
    + rewrite IH by tauto. reflexivity.
Qed.



Section FindFacts.
Context `{Host}.




(** X22.  What [find_all_gyptest_files] returns is in ascending order and has
    the paths the walk found, each as often as found. *)
Theorem find_all_sorted (directory : string) :
  StronglySorted str_le (find_all_gyptest_files directory) /\
  Permutation (walk_gyptest directory (os_tree directory))
    (find_all_gyptest_files directory).
Proof.
  unfold find_all_gyptest_files. split.
  - apply Sorted_StronglySorted.
    + intros a b c. apply str_le_trans.
    + apply sort_strings_sorted.
  - apply sort_strings_perm.
Qed.


End FindFacts.

(** X24.  A subdirectory named [.svn] is not entered: the walk finds what it
    would find if the subdirectory were not there. *)
Theorem walk_skips_svn (root : string) (pre post : list (string * Tree))
    (svn : Tree) (files : list string) :
  List.NoDup (map fst (pre ++ (".svn", svn) :: post)) ->
  walk_gyptest root (Dir (pre ++ (".svn", svn) :: post) files)
  = walk_gyptest root (Dir (pre ++ post) files).
Proof.
  intros Hnodup. rewrite !walk_unfold. f_equal.
  rewrite map_app in Hnodup. simpl in Hnodup.
  assert (Hpre : ~ In ".svn" (map fst pre)).
  { intros Hin. apply NoDup_remove_2 in Hnodup. apply Hnodup.
    apply in_or_app. now left. }
  assert (Hpost : ~ In ".svn" (map fst post)).
  { intros Hin. apply NoDup_remove_2 in Hnodup. apply Hnodup.
    apply in_or_app. now right. }
  assert (Hnone : ~ In ".svn" (map fst pre ++ map fst post)).
  { rewrite in_app_iff. tauto. }
  assert (Hdirs : prune_svn (map fst (pre ++ (".svn", svn) :: post))
                  = prune_svn (map fst (pre ++ post))).
  { unfold prune_svn. rewrite !map_app. simpl.
    rewrite (existsb_eqb_notin _ _ Hnone).
    assert (Hin : existsb (String.eqb ".svn")
                    (map fst pre ++ ".svn" :: map fst post) = true).
    { apply existsb_eqb_In. apply in_or_app. right. now left. }
    rewrite Hin. now apply list_remove_first. }
  rewrite Hdirs.
  assert (Hskip : existsb (String.eqb ".svn") (prune_svn (map fst (pre ++ post)))
                  = false).
  { unfold prune_svn. rewrite map_app, (existsb_eqb_notin _ _ Hnone).
    now apply existsb_eqb_notin. }
  rewrite !flat_map_app. simpl. now rewrite Hskip.
Qed.

(** ** The theorems at work on the two hosts *)

Lemma execute_argv_witness :
  @execute demo_host (VList [VStr "python"; VStr "t1"]) None None demo_state
  = (Ok (VInt 0),
     mkState (mkCommandRunner true true ∅ (Some "output"))
       [ESpawn (VList [VStr "python"; VStr "t1"]) false PIPE STDOUT 0]).
Proof.
  apply (@execute_argv demo_host [VStr "python"; VStr "t1"] None None
           demo_state 0%Z "output"); reflexivity.
Defined.

Lemma execute_launch_failure_witness :
  @execute broken_host (VList [VStr "python"; VStr "t1"]) None None demo_state
  = (Raise OSError, demo_state).
Proof.
  apply (@execute_launch_failure broken_host); reflexivity.
Defined.

Lemma execute_callable_witness :
  @execute demo_host (VTuple [VFunc "chdir"; VStr "/tmp"]) None None demo_state
  = (Ok VNone, mkState demo_runner [ECall "chdir" [VStr "/tmp"]]).
Proof.
  apply (@execute_callable demo_host "chdir" [VStr "/tmp"] None None
           demo_state); reflexivity.
Defined.


Lemma run_dry_run_witness :
  @run demo_host (VList [VStr "python"; VStr "t1"]) None None None
    (mkState (CommandRunner_init true false ∅) [])
  = (Ok (VInt 0),
     mkState (CommandRunner_init true false ∅)
       [EWrite "stdout" ("python t1" +:+ NL); EFlush "stdout";
        EFlush "stdout"]).
Proof.
  apply (@run_dry_run demo_host ["python"; "t1"] None None
           (mkState (CommandRunner_init true false ∅) [])); reflexivity.
Defined.

Lemma run_quiet_dry_run_witness :
  @run demo_host (VTuple [VFunc "chdir"; VStr "/tmp"]) None None None
    (mkState (CommandRunner_init false false ∅) [])
  = (Ok (VInt 0), mkState (CommandRunner_init false false ∅) []).
Proof.
  apply (@run_quiet_dry_run demo_host); reflexivity.
Defined.

Lemma matrix_dry_run_witness :
  exists new,
    @run_formats demo_host false ["fmtA"; "fmtB"] ["t1"; "t2"] no_ledgers
      (mkState (CommandRunner_init true false ∅) [])
    = (Ok (mkLedgers ["t1"; "t2"; "t1"; "t2"] [] []),
       mkState (CommandRunner_init true false ∅) ([] ++ new)) /\
    forall f, spawned new f = [].
Proof.
  apply (@matrix_dry_run demo_host false ["fmtA"; "fmtB"] ["t1"; "t2"]
           (mkState (CommandRunner_init true false ∅) [])).
  reflexivity.
Defined.

Lemma matrix_coverage_witness :
  exists new,
    snd (@run_formats demo_host false ["fmtA"; "fmtB"] ["t1"] no_ledgers
           demo_state)
    = mkState demo_runner ([] ++ new) /\
    forall f,
      spawned new f
      = [(VList [VStr "python"; VStr "t1"], Some "fmtA");
         (VList [VStr "python"; VStr "t1"], Some "fmtB")].
Proof.
  eapply (@matrix_coverage demo_host false ["fmtA"; "fmtB"] ["t1"] no_ledgers
            _ demo_state).
  - reflexivity.
  - vm_compute. reflexivity.
Defined.

Lemma main_needs_all_witness :
  @main demo_host demo_options [] demo_state
  = (Ok 1%Z,
     mkState demo_runner
       [EWrite "stderr" ("Specify -a to get all tests." +:+ NL);
        EFlush "stderr"]).
Proof.
  apply (@main_needs_all demo_host demo_options demo_state); reflexivity.
Defined.

Lemma main_list_witness :
  @main demo_host demo_list_options ["test"; "x.py"] demo_state
  = (Raise (SystemExit 0),
     mkState demo_runner
       (flat_map (fun t => [EWrite "stdout" t; EFlush "stdout";
                            EWrite "stdout" NL; EFlush "stdout"])
          ["test/gyptest.py"; "test/hello/gyptest-a.py";
           "test/hello/gyptest-all.py"; "x.py"])).
Proof.
  apply (@main_list demo_host demo_list_options ["test"; "x.py"] demo_state);
    try reflexivity.
  discriminate.
Defined.



Lemma walk_skips_svn_witness :
  walk_gyptest "test"
    (Dir ([("hello", Dir [] ["gyptest-a.py"])] ++
          (".svn", Dir [] ["gyptest-old.py"]) :: [("lib", Dir [] [])])
       ["gyptest.py"])
  = walk_gyptest "test"
      (Dir ([("hello", Dir [] ["gyptest-a.py"])] ++ [("lib", Dir [] [])])
         ["gyptest.py"]).
Proof.
  apply walk_skips_svn. simpl.
  repeat constructor; simpl; intuition discriminate.
Defined.

Lemma ledger_classification_witness :
  exists new : list Event,
    let order := flat_map (fun _ => ["t1"; "t2"; "skip"]) ["fmtA"; "fmtB"] in
    let statuses :=
      if active (self demo_state) then spawn_codes new
      else map (fun _ => 0%Z) order in
    let runs := combine order statuses in
    trace (snd (@run_formats demo_host false ["fmtA"; "fmtB"]
                  ["t1"; "t2"; "skip"] no_ledgers demo_state))
    = trace demo_state ++ new /\
    (active (self demo_state) = true ->
     @answered demo_host (trace demo_state) new) /\
    length statuses = (2 * 3)%nat /\
    ["skip"; "skip"] = map fst (List.filter (fun r => (snd r =? 2)%Z) runs) /\
    ["t2"] =
      map fst (List.filter
                 (fun r => negb (snd r =? 2)%Z && negb (snd r =? 0)%Z) runs) /\
    ["t1"; "t1"; "t2"] = map fst (List.filter (fun r => (snd r =? 0)%Z) runs) /\
    (3 + 1 + 2 = 2 * 3)%nat.
Proof.
  apply (@ledger_classification demo_host false ["fmtA"; "fmtB"]
           ["t1"; "t2"; "skip"] demo_state
           (snd (@run_formats demo_host false ["fmtA"; "fmtB"]
                   ["t1"; "t2"; "skip"] no_ledgers demo_state))
           (mkLedgers ["t1"; "t1"; "t2"] ["t2"] ["skip"; "skip"])).
  vm_compute. reflexivity.
Defined.

(** ** main as a whole *)

Section MainWhole.
Context `{Host}.

(** Without [-C], [--path] and [--list], and with an argument or [-a],
    [main] is the matrix over the tests it has collected. *)
Lemma main_runs (opts : Options) (args : list string) (st : State) :
  opt_chdir opts = None -> opt_path opts = [] -> opt_list opts = false ->
  args <> [] \/ opt_all opts = true ->
  main opts args st = main_run opts (main_tests args (trace st)) st.
Proof.
  intros Hchdir Hpath Hlist Hargs. unfold main, main_tests.
  rewrite Hchdir, Hpath, Hlist.
  destruct args as [|arg args].
  - destruct Hargs as [Hargs|Hall]; [congruence|]. rewrite Hall.
    reflexivity.
  - destruct (opt_all opts); reflexivity.
Qed.

(** X13.  With the option [-n], a known list of formats, an argument or
    [-a], and without [-C], [--path] and [--list], [main] returns 0 and
    spawns no process. *)
Theorem main_no_exec (opts : Options) (args fl : list string) (st : State) :
  opt_chdir opts = None -> opt_path opts = [] -> opt_list opts = false ->
  args <> [] \/ opt_all opts = true ->
  opt_no_exec opts = true ->
  format_list opts = Ok fl ->
  exists new,
    main opts args st
    = (Ok 0%Z, mkState (main_runner opts) (trace st ++ new)) /\
    forall f, spawned new f = [].
Proof.
  intros Hchdir Hpath Hlist Hargs Hn Hfl.
  rewrite (main_runs opts args st Hchdir Hpath Hlist Hargs).
  now apply (main_run_no_exec opts _ fl).
Qed.

(** X15.  With a known list of formats, an argument or [-a], and without
    [-C], [--path] and [--list]: when no launch fails, [main] completes
    and returns 0 or 1. *)
Theorem main_completes (opts : Options) (args fl : list string) (st : State) :
  opt_chdir opts = None -> opt_path opts = [] -> opt_list opts = false ->
  args <> [] \/ opt_all opts = true ->
  format_list opts = Ok fl ->
  (forall c sh so se tr, exists r, popen_result c sh so se tr = Ok r) ->
  exists code st',
    main opts args st = (Ok code, st') /\ (code = 0%Z \/ code = 1%Z).
Proof.
  intros Hchdir Hpath Hlist Hargs Hfl Hpopen.
  rewrite (main_runs opts args st Hchdir Hpath Hlist Hargs).
  now apply (main_run_completes opts _ fl).
Qed.

Lemma display_test_events (test : string) (st : State) :
  display (test_command test) st
  = (Ok tt,
     mkState (self st)
       (trace st ++
        if verbose (self st)
        then [EWrite "stdout" (terminated (join " " [sys_executable; test]));
              EFlush "stdout"; EFlush "stdout"]
        else [])).
Proof.
  unfold test_command.
  change [VStr sys_executable; VStr test]
    with (map VStr [sys_executable; test]).
  destruct (verbose (self st)) eqn:Hv.
  - now rewrite (display_argv _ st Hv).
  - unfold display, bind, get_self. rewrite Hv. simpl.
    rewrite app_nil_r. now destruct st.
Qed.

(** X16.  Without [-n], [-C], [--path] and [--list], with a known list of
    formats that is not empty: when the first test cannot be launched,
    [main] raises the error of the launch.  By then it has only published
    [PYTHONPATH] and the first format and announced them and the command
    of that test: nothing was spawned and no report is written. *)
Theorem main_launch_failure (opts : Options) (args : list string)
    (fmt test : string) (fl tests : list string) (st : State) (e : exn) :
  opt_chdir opts = None -> opt_path opts = [] -> opt_list opts = false ->
  args <> [] \/ opt_all opts = true ->
  opt_no_exec opts = false ->
  format_list opts = Ok (fmt :: fl) ->
  main_tests args (trace st) = test :: tests ->
  (forall tr,
      popen_result (test_command test) (String.eqb sys_platform "win32")
        (Stream "stdout") (Stream "stderr") tr = Raise e) ->
  main opts args st
  = (Raise e,
     mkState (main_runner opts)
       (trace st ++ first_launch_events opts fmt test)) /\
  forall f, spawned (first_launch_events opts fmt test) f = [].
Proof.
  intros Hchdir Hpath Hlist Hargs Hn Hfl Htests Hpopen.
  rewrite (main_runs opts args st Hchdir Hpath Hlist Hargs), Htests.
  rewrite main_run_unfold, Hfl.
  unfold matrix_start, main_setup, first_launch_events, main_runner.
  cbn [run_formats run_tests].
  split.
  - destruct (opt_quiet opts) eqn:Hq; unfold_m; cbn [negb fst snd];
      cbn [self trace]; unfold run; unfold bind at 1;
      fold (test_command test); rewrite display_test_events;
      unfold test_command;
      cbn [self trace verbose CommandRunner_init negb];
      (rewrite (execute_spawn_failure _ (Some (Stream "stdout"))
                  (Some (Stream "stderr")) _ e);
       [| cbn [self active CommandRunner_init]; now rewrite Hn
        | apply Hpopen ]);
      cbn [app]; rewrite <- ?app_assoc; reflexivity.
  - intros f. destruct (opt_quiet opts); reflexivity.
Qed.

(** X17.  Without [-f], on a platform that is not one of the six in the
    table, with an argument or [-a] and without [-C], [--path] and
    [--list], [main] raises [KeyError] for the platform after it has
    published [PYTHONPATH] and before any test is run. *)
Theorem main_unknown_platform (opts : Options) (args : list string)
    (st : State) :
  opt_chdir opts = None -> opt_path opts = [] -> opt_list opts = false ->
  args <> [] \/ opt_all opts = true ->
  opt_format opts = EmptyString ->
  existsb (String.eqb sys_platform) (map fst platform_format) = false ->
  main opts args st = (Raise (KeyError sys_platform), matrix_start opts st).
Proof.
  intros Hchdir Hpath Hlist Hargs Hf Hp.
  rewrite (main_runs opts args st Hchdir Hpath Hlist Hargs).
  now apply main_run_unknown_platform.
Qed.

(** X18.  When the arguments give no test (directories without a
    gyptest file), with a known list of formats and without [-C],
    [--path] and [--list], [main] returns 0 and spawns nothing, for any
    number of formats. *)
Theorem main_no_tests (opts : Options) (args fl : list string) (st : State) :
  opt_chdir opts = None -> opt_path opts = [] -> opt_list opts = false ->
  args <> [] \/ opt_all opts = true ->
  main_tests args (trace st) = [] ->
  format_list opts = Ok fl ->
  exists new,
    main opts args st
    = (Ok 0%Z, mkState (main_runner opts) (trace st ++ new)) /\
    forall f, spawned new f = [].
Proof.
  intros Hchdir Hpath Hlist Hargs Htests Hfl.
  rewrite (main_runs opts args st Hchdir Hpath Hlist Hargs), Htests.
  now apply (main_run_no_tests opts fl).
Qed.

End MainWhole.

Lemma main_no_exec_witness :
  exists new,
    @main demo_host demo_dry_options ["t1"; "t2"] demo_state
    = (Ok 0%Z, mkState (main_runner demo_dry_options) ([] ++ new)) /\
    forall f, spawned new f = [].
Proof.
  apply (@main_no_exec demo_host demo_dry_options ["t1"; "t2"]
           ["fmtA"; "fmtB"] demo_state); try reflexivity.
  left. discriminate.
Defined.

Lemma main_completes_witness :
  exists code st',
    @main demo_host demo_options ["t1"; "t2"] demo_state = (Ok code, st') /\
    (code = 0%Z \/ code = 1%Z).
Proof.
  apply (@main_completes demo_host demo_options ["t1"; "t2"]
           ["fmtA"; "fmtB"] demo_state); try reflexivity.
  - left. discriminate.
  - intros c sh so se tr. eexists. reflexivity.
Defined.

Lemma main_launch_failure_witness :
  @main broken_host demo_options ["t1"; "t2"] demo_state
  = (Raise OSError,
     mkState (main_runner demo_options)
       ([] ++ @first_launch_events broken_host demo_options "fmtA" "t1")) /\
  forall f,
    spawned (@first_launch_events broken_host demo_options "fmtA" "t1") f = [].
Proof.
  apply (@main_launch_failure broken_host demo_options ["t1"; "t2"] "fmtA"
           "t1" ["fmtB"] ["t2"] demo_state OSError); try reflexivity.
  left. discriminate.
Defined.

Lemma main_unknown_platform_witness :
  @main broken_host demo_default_options ["t1"] demo_state
  = (Raise (KeyError "sunos5"),
     @matrix_start broken_host demo_default_options demo_state).
Proof.
  apply (@main_unknown_platform broken_host demo_default_options ["t1"]
           demo_state); try reflexivity.
  left. discriminate.
Defined.

Lemma main_no_tests_witness :
  exists new,
    @main bare_host demo_options ["empty"] demo_state
    = (Ok 0%Z, mkState (main_runner demo_options) ([] ++ new)) /\
    forall f, spawned new f = [].
Proof.
  apply (@main_no_tests bare_host demo_options ["empty"] ["fmtA"; "fmtB"]
           demo_state); try reflexivity.
  left. discriminate.
Defined.
